(** * PILOT evaluation utilities: a shallow embedding and its properties

    The development embeds, function by function, the parts of

      - [experiments/docking_utils.py]          ([split_list]) and
      - [experiments/sampling/analyze_strict.py] ([BasicMolecularMetrics])

    that the specification talks about.

    Conventions of the embedding.
      - Python [int]s that may be negative are [Z]; lengths and counts are
        [nat].
      - Python/NumPy/torch floats are idealised as exact rationals [Q]
        (ratios of counts, running means) or as reals [R] (where [exp]
        occurs).  A division whose result is not a finite number (the
        tensor division [0/0] of an accumulator that was never updated)
        is the value [NaN] of [fval].
      - A raised exception is the [Raise] branch of [Result]; the class
        hierarchy that the [except] clauses test is [is_ValueError].
      - The attributes of a [BasicMolecularMetrics] instance and the
        text printed on stdout are the record [State]; a method is a
        function in the monad [M] of state and exceptions.
      - RDKit and the helper module [experiments.sampling.utils] are not
        part of the embedded files; their functions are the fields of the
        classes [RDKit] and [SamplingUtils], and the theorems hold for
        every instance.  The torchmetrics accumulators are modelled in
        [Torchmetrics]. *)

From Stdlib Require Import QArith Qabs Qminmax ZArith Lia Lra Reals Psatz Ascii.
From stdpp Require Import gmap strings list fin_maps.

Local Open Scope Z_scope.

(** ** Exceptions and results *)

Inductive Exn :=
| ZeroDivisionError
| IndexError
| AtomValenceException
| KekulizeException
| ValueError
| TypeError
| AttributeError
| OtherException.

(** [except ValueError] also catches RDKit's sanitization exceptions,
    which derive from it. *)
Definition is_ValueError (e : Exn) : bool :=
  match e with
  | AtomValenceException | KekulizeException | ValueError => true
  | _ => false
  end.

Inductive Result (A : Type) :=
| Ok (a : A)
| Raise (e : Exn).
Arguments Ok {A} a.
Arguments Raise {A} e.

(** ** docking_utils.py *)

Module DockingUtils.
Section SplitList.
Context {A : Type}.

(** [data[a:b]] for non-negative [a], [b] (Python clamps at the end of
    the list). *)
Definition slice (data : list A) (a b : Z) : list A :=
  take (Z.to_nat (b - a)) (drop (Z.to_nat a) data).

(** [range(n)]: empty when [n <= 0]. *)
Definition range (n : Z) : list Z := Z.of_nat <$> seq 0 (Z.to_nat n).

(** One iteration of the [for i in range(num_chunks)] loop; the state is
    [(start, chunks)]. *)
Definition split_step (data : list A) (chunk_size remainder : Z)
    (st : Z * list (list A)) (i : Z) : Z * list (list A) :=
  let '(start, chunks) := st in
  let chunk_end := start + chunk_size + (if i <? remainder then 1 else 0) in
  (chunk_end, chunks ++ [slice data start chunk_end]).

(** [//] and [%] are Python's floor division and modulo, which are
    [Z.div] and [Z.modulo]; both raise on a zero divisor. *)
Definition split_list (data : list A) (num_chunks : Z) : Result (list (list A)) :=
  if num_chunks =? 0 then Raise ZeroDivisionError
  else
    let chunk_size := Z.of_nat (length data) / num_chunks in
    let remainder := Z.of_nat (length data) mod num_chunks in
    Ok (snd (foldl (split_step data chunk_size remainder) (0, []) (range num_chunks))).

(** Where the [i]-th chunk starts. *)
Definition cut (q r i : Z) : Z := i * q + Z.min i r.

Lemma slice_app (data : list A) (a b c : Z) :
  0 <= a -> a <= b -> b <= c ->
  slice data a b ++ slice data b c = slice data a c.
Proof.
  intros Ha Hab Hbc. unfold slice.
  replace (Z.to_nat (c - a)) with (Z.to_nat (b - a) + Z.to_nat (c - b))%nat by lia.
  replace (Z.to_nat b) with (Z.to_nat a + Z.to_nat (b - a))%nat by lia.
  rewrite <- drop_drop.
  generalize (drop (Z.to_nat a) data) as l.
  generalize (Z.to_nat (b - a)) as n. generalize (Z.to_nat (c - b)) as m.
  intros m n. induction n as [|n IH]; intros l; simpl.
  - by destruct l.
  - destruct l as [|x l]; simpl.
    + by rewrite take_nil.
    + f_equal. apply IH.
Qed.

Lemma cut_succ (q r i : Z) :
  cut q r (i + 1) = cut q r i + q + (if i <? r then 1 else 0).
Proof. unfold cut. destruct (Z.ltb_spec i r); lia. Qed.

(** The chunk the loop appends at iteration [i]. *)
Definition chunk_at (data : list A) (q r i : Z) : list A :=
  slice data (cut q r i) (cut q r (i + 1)).

(** Loop invariant: entering iteration [k] with [start = cut q r k], the
    loop appends the chunks [k, k+1, ...] in order. *)
Lemma split_loop (data : list A) (q r : Z) (m k : nat) (cs : list (list A)) :
  foldl (split_step data q r) (cut q r (Z.of_nat k), cs) (Z.of_nat <$> seq k m)
  = (cut q r (Z.of_nat (k + m)),
     cs ++ (chunk_at data q r <$> (Z.of_nat <$> seq k m))).
Proof.
  revert k cs. induction m as [|m IH]; intros k cs; simpl.
  - by rewrite Nat.add_0_r, app_nil_r.
  - rewrite <- cut_succ.
    replace (Z.of_nat k + 1) with (Z.of_nat (S k)) by lia.
    rewrite IH. rewrite <- app_assoc. simpl.
    unfold chunk_at at 2.
    replace (Z.of_nat k + 1) with (Z.of_nat (S k)) by lia.
    do 2 f_equal. lia.
Qed.

Lemma concat_chunks (data : list A) (q r : Z) (m k : nat) :
  0 <= q -> 0 <= r ->
  concat (chunk_at data q r <$> (Z.of_nat <$> seq k m))
  = slice data (cut q r (Z.of_nat k)) (cut q r (Z.of_nat (k + m))).
Proof.
  intros Hq Hr. revert k. induction m as [|m IH]; intros k; simpl.
  - rewrite Nat.add_0_r. unfold slice. by rewrite Z.sub_diag.
  - rewrite IH. unfold chunk_at.
    replace (Z.of_nat k + 1) with (Z.of_nat (S k)) by lia.
    replace (k + S m)%nat with (S k + m)%nat by lia.
    apply slice_app; unfold cut; nia.
Qed.

Lemma slice_all (data : list A) : slice data 0 (Z.of_nat (length data)) = data.
Proof.
  unfold slice. simpl. rewrite Z.sub_0_r, Nat2Z.id. apply firstn_all.
Qed.

Lemma length_slice (data : list A) (a b : Z) :
  0 <= a -> a <= b -> b <= Z.of_nat (length data) ->
  Z.of_nat (length (slice data a b)) = b - a.
Proof.
  intros Ha Hab Hb. unfold slice. rewrite length_take, length_drop. lia.
Qed.

(** C10. For [1 <= num_chunks], [split_list] returns exactly [num_chunks]
    chunks, their concatenation in order is [data], and chunk number [i]
    has [len(data) // num_chunks + 1] elements when
    [i < len(data) % num_chunks] and [len(data) // num_chunks] elements
    otherwise. *)
Theorem split_list_chunks (data : list A) (num_chunks : Z) :
  1 <= num_chunks ->
  exists chunks : list (list A),
    split_list data num_chunks = Ok chunks /\
    Z.of_nat (length chunks) = num_chunks /\
    concat chunks = data /\
    forall (i : nat) (c : list A), chunks !! i = Some c ->
      Z.of_nat (length c)
      = Z.of_nat (length data) / num_chunks
        + (if Z.of_nat i <? Z.of_nat (length data) mod num_chunks then 1 else 0).
Proof.
  intros Hn.
  set (len := Z.of_nat (length data)).
  set (q := len / num_chunks). set (r := len mod num_chunks).
  assert (Hlen : len = num_chunks * q + r) by (apply Z.div_mod; lia).
  assert (Hr : 0 <= r < num_chunks) by (apply Z.mod_pos_bound; lia).
  assert (Hq : 0 <= q) by (apply Z.div_pos; lia).
  assert (Hcut : cut q r num_chunks = len) by (unfold cut; lia).
  eexists. split.
  { unfold split_list. destruct (Z.eqb_spec num_chunks 0) as [?|_]; [lia|].
    fold len q r. unfold range.
    replace 0 with (cut q r (Z.of_nat 0)) at 1 by (unfold cut; lia).
    rewrite split_loop. simpl. reflexivity. }
  split; [|split].
  - rewrite !length_fmap, length_seq. lia.
  - rewrite concat_chunks by lia. simpl.
    rewrite Z2Nat.id by lia. rewrite Hcut.
    replace (cut q r (Z.of_nat 0)) with 0 by (unfold cut; lia).
    apply slice_all.
  - intros i c Hi.
    rewrite list_lookup_fmap in Hi.
    destruct ((Z.of_nat <$> seq 0 (Z.to_nat num_chunks)) !! i) as [j|] eqn:Hj;
      [|discriminate].
    rewrite list_lookup_fmap in Hj.
    destruct (seq 0 (Z.to_nat num_chunks) !! i) as [k|] eqn:Hk; [|discriminate].
    apply lookup_seq in Hk as [-> Hk]. simpl in Hj, Hi.
    injection Hj as <-. injection Hi as <-.
    unfold chunk_at. rewrite length_slice.
    + rewrite cut_succ. lia.
    + unfold cut. nia.
    + rewrite cut_succ. destruct (Z.ltb_spec (Z.of_nat i) r); lia.
    + fold len. rewrite <- Hcut. unfold cut. nia.
Qed.

End SplitList.

(** Seven elements in three chunks: sizes 3, 2, 2. *)
Lemma split_list_chunks_witness :
  1 <= 3 /\
  exists chunks : list (list nat),
    split_list [1; 2; 3; 4; 5; 6; 7]%nat 3 = Ok chunks /\
    Z.of_nat (length chunks) = 3 /\
    concat chunks = [1; 2; 3; 4; 5; 6; 7]%nat /\
    forall (i : nat) (c : list nat), chunks !! i = Some c ->
      Z.of_nat (length c)
      = Z.of_nat (length [1; 2; 3; 4; 5; 6; 7]%nat) / 3
        + (if Z.of_nat i <? Z.of_nat (length [1; 2; 3; 4; 5; 6; 7]%nat) mod 3
           then 1 else 0).
Proof.
  split; [lia|]. apply (split_list_chunks [1; 2; 3; 4; 5; 6; 7]%nat 3). lia.
Defined.

Example split_list_7_3 :
  split_list [1; 2; 3; 4; 5; 6; 7]%nat 3 = Ok [[1; 2; 3]; [4; 5]; [6; 7]]%nat.
Proof. reflexivity. Qed.

Example split_list_zero_chunks : split_list [1; 2]%nat 0 = Raise ZeroDivisionError.
Proof. reflexivity. Qed.

(** [split_list] has no guard on [num_chunks]: zero raises
    [ZeroDivisionError], and a negative number gives no chunk at all
    ([range] is empty), whatever the data. *)
Theorem split_list_nonpositive {A : Type} (data : list A) :
  split_list data 0 = Raise ZeroDivisionError /\
  forall p : positive, split_list data (Z.neg p) = Ok [].
Proof.
  split; [reflexivity|]. intros p. unfold split_list, range.
  change (Z.neg p =? 0) with false. cbv iota.
  by rewrite Z2Nat.inj_neg.
Qed.

(** With more chunks than elements, every element gets a chunk of its own
    and the remaining chunks are empty. *)
Theorem split_list_more_chunks_than_data {A : Type} (data : list A) (num_chunks : Z) :
  Z.of_nat (length data) < num_chunks ->
  exists chunks : list (list A),
    split_list data num_chunks = Ok chunks /\
    forall (i : nat) (c : list A), chunks !! i = Some c ->
      c = match data !! i with
          | Some x => [x]
          | None => []
          end.
Proof.
  intros Hn.
  set (len := Z.of_nat (length data)) in *.
  assert (Hq : len / num_chunks = 0) by (apply Z.div_small; lia).
  assert (Hr : len mod num_chunks = len) by (apply Z.mod_small; lia).
  eexists. split.
  { unfold split_list. destruct (Z.eqb_spec num_chunks 0) as [?|_]; [lia|].
    fold len. rewrite Hq, Hr. unfold range.
    pose proof (split_loop data 0 len (Z.to_nat num_chunks) 0 []) as Hloop.
    replace (cut 0 len (Z.of_nat 0)) with 0 in Hloop by (unfold cut; lia).
    rewrite Hloop. simpl. reflexivity. }
  intros i c Hi.
  rewrite list_lookup_fmap in Hi.
  destruct ((Z.of_nat <$> seq 0 (Z.to_nat num_chunks)) !! i) as [j|] eqn:Hj;
    [|discriminate].
  rewrite list_lookup_fmap in Hj.
  destruct (seq 0 (Z.to_nat num_chunks) !! i) as [k|] eqn:Hk; [|discriminate].
  apply lookup_seq in Hk as [-> Hk]. simpl in Hj, Hi.
  injection Hj as <-. injection Hi as <-.
  unfold chunk_at, slice, cut.
  destruct (data !! i) as [x|] eqn:Hx.
  - apply lookup_lt_Some in Hx as Hlt.
    replace (Z.to_nat _) with 1%nat by (unfold len; lia).
    replace (Z.to_nat _) with i by (unfold len; lia).
    rewrite <- (take_drop_middle data i x Hx) at 1.
    rewrite drop_app_length' by (rewrite length_take; lia).
    reflexivity.
  - apply lookup_ge_None in Hx.
    replace (Z.to_nat (_ - _)) with 0%nat by (unfold len; lia).
    reflexivity.
Qed.

Lemma split_list_more_chunks_than_data_witness :
  exists chunks : list (list nat),
    split_list [7; 8]%nat 4 = Ok chunks /\
    forall (i : nat) (c : list nat), chunks !! i = Some c ->
      c = match [7; 8]%nat !! i with
          | Some x => [x]
          | None => []
          end.
Proof. apply (split_list_more_chunks_than_data [7; 8]%nat 4). simpl. lia. Defined.

Example split_two_in_four :
  split_list [7; 8]%nat 4 = Ok [[7]; [8]; []; []]%nat.
Proof. reflexivity. Qed.

(** *** [get_random_id] *)

Section RandomId.

(** The random source: [rand i] is the number that the [i]-th call of
    [random.choice] draws; the call returns the element at that position
    modulo the length of the sequence. *)
Variable rand : nat -> nat.

(** [string.ascii_lowercase], as a list of characters. *)
Definition ascii_lowercase : list ascii :=
  String.list_ascii_of_string "abcdefghijklmnopqrstuvwxyz".

(** [random.choice(seq)] at call number [i], on the non-empty sequence
    [first :: rest]. *)
Definition random_choice (i : nat) (first : ascii) (rest : list ascii) : ascii :=
  nth (rand i mod length (first :: rest)) (first :: rest) first.

(** [get_random_id(length)]; [range(length)] is empty for a negative
    length. *)
Definition get_random_id (length : Z) : string :=
  String.string_of_list_ascii
    ((fun i => match ascii_lowercase with
               | [] => "a"%char
               | first :: rest => random_choice i first rest
               end) <$> seq 0 (Z.to_nat length)).

Lemma length_string_of_list_ascii (l : list ascii) :
  String.length (String.string_of_list_ascii l) = length l.
Proof. induction l as [|c l IH]; simpl; [done|]. by rewrite IH. Qed.

Lemma random_choice_elem (i : nat) (first : ascii) (rest : list ascii) :
  random_choice i first rest ∈ first :: rest.
Proof.
  unfold random_choice. apply list_elem_of_In, nth_In.
  apply Nat.mod_upper_bound. simpl. lia.
Qed.

(** Whatever the random source draws, the identifier has exactly
    [length] characters (none when [length] is negative), and every one
    of them is a lower-case letter. *)
Theorem get_random_id_shape (length : Z) :
  Z.of_nat (String.length (get_random_id length)) = Z.max 0 length /\
  Forall (fun c => c ∈ ascii_lowercase)
         (String.list_ascii_of_string (get_random_id length)).
Proof.
  unfold get_random_id. split.
  - rewrite length_string_of_list_ascii, length_fmap, length_seq. lia.
  - rewrite String.list_ascii_of_string_of_list_ascii.
    apply Forall_fmap, Forall_forall. intros i _. simpl.
    apply random_choice_elem.
Qed.

End RandomId.

End DockingUtils.

(** ** Numbers *)

Local Open Scope Q_scope.

(** A float that may fail to be a finite number. *)
Inductive fval :=
| Fin (q : Q)
| NaN.

Definition Qltb (x y : Q) : bool := negb (Qle_bool y x).

Lemma Qltb_lt (x y : Q) : Qltb x y = true <-> x < y.
Proof.
  unfold Qltb. rewrite negb_true_iff, <- not_true_iff_false, Qle_bool_iff.
  split; [apply Qnot_le_lt | apply Qlt_not_le].
Qed.

Definition Qsum (l : list Q) : Q := foldr Qplus 0 l.

(** Python's [a / b] on two [int]s. *)
Definition py_truediv (a b : nat) : Result Q :=
  if (b =? 0)%nat then Raise ZeroDivisionError
  else Ok (inject_Z (Z.of_nat a) / inject_Z (Z.of_nat b)).

(** [np.mean] of an array given by its flattened entries: [nan] (with a
    warning, not an exception) on an empty array. *)
Definition np_mean (entries : list Q) : fval :=
  match entries with
  | [] => NaN
  | _ => Fin (Qsum entries / inject_Z (Z.of_nat (length entries)))
  end.

(** ** torchmetrics accumulators

    [MeanMetric] keeps the running pair (weighted sum, total weight);
    [compute] divides them, which on a metric that was never updated is
    the tensor division [0/0].  [MaxMetric] starts at minus infinity,
    here [None]. *)
Module Torchmetrics.

Record MeanMetric := { mean_value : Q; weight : Q }.

Definition mean_init : MeanMetric := {| mean_value := 0; weight := 0 |}.

(** [update(value, weight)] with scalar arguments. *)
Definition mean_update (value w : Q) (m : MeanMetric) : MeanMetric :=
  {| mean_value := mean_value m + value * w; weight := weight m + w |}.

(** [update(values)] with a one-dimensional tensor: every entry has
    weight one; an empty tensor changes nothing. *)
Definition mean_update_tensor (values : list Q) (m : MeanMetric) : MeanMetric :=
  foldl (fun acc v => mean_update v 1 acc) m values.

Definition mean_compute (m : MeanMetric) : fval :=
  if Qeq_bool (weight m) 0 then NaN else Fin (mean_value m / weight m).

Definition MaxMetric := option Q.

Definition max_init : MaxMetric := None.

Definition max_update_tensor (values : list Q) (m : MaxMetric) : MaxMetric :=
  foldl (fun acc v => match acc with
                      | None => Some v
                      | Some a => Some (Qmax a v)
                      end) m values.

Definition max_compute (m : MaxMetric) : MaxMetric := m.

End Torchmetrics.
Export Torchmetrics.

(** ** collections.Counter *)

(** [c[k]]: a missing key reads as zero. *)
Definition counter_get (k : string) (c : gmap string nat) : nat :=
  default 0%nat (c !! k).

(** [c[k] += 1]. *)
Definition counter_incr (k : string) (c : gmap string nat) : gmap string nat :=
  <[k := S (counter_get k c)]> c.

(** The sum of all counts. *)
Definition counter_total (c : gmap string nat) : nat :=
  map_fold (fun _ v acc => (v + acc)%nat) 0%nat c.

Lemma counter_total_insert (k : string) (v : nat) (c : gmap string nat) :
  (counter_total (<[k := v]> c) + counter_get k c = v + counter_total c)%nat.
Proof.
  unfold counter_total, counter_get.
  destruct (c !! k) as [w|] eqn:Hk; simpl.
  - rewrite <- (insert_delete_id c k w) at 2 by done.
    rewrite <- insert_delete_eq.
    rewrite !map_fold_insert_L; try (by rewrite lookup_delete_eq); intros; lia.
  - rewrite map_fold_insert_L; [lia | intros; lia | done].
Qed.

Lemma counter_total_incr (k : string) (c : gmap string nat) :
  counter_total (counter_incr k c) = S (counter_total c).
Proof.
  unfold counter_incr. pose proof (counter_total_insert k (S (counter_get k c)) c). lia.
Qed.

Lemma counter_get_incr (k k' : string) (c : gmap string nat) :
  counter_get k' (counter_incr k c)
  = if decide (k = k') then S (counter_get k c) else counter_get k' c.
Proof.
  unfold counter_incr, counter_get at 1. rewrite lookup_insert.
  destruct (decide (k = k')); done.
Qed.

Lemma counter_incr_inj (k k' : string) (c : gmap string nat) :
  counter_incr k c = counter_incr k' c -> k = k'.
Proof.
  intros H. destruct (decide (k = k')) as [|Hne]; [done|].
  assert (Hg : counter_get k (counter_incr k c) = counter_get k (counter_incr k' c))
    by (by rewrite H).
  rewrite !counter_get_incr in Hg.
  destruct (decide (k = k)); [|done]. destruct (decide (k' = k)); [congruence|lia].
Qed.

(** ** External collaborators

    RDKit and [experiments.sampling.utils] are outside the embedded
    files.  Their functions are the fields of two classes; every theorem
    below holds for all instances. *)

(** A bond-order adjacency matrix ([GetAdjacencyMatrix(useBO=True)]), by
    rows. *)
Definition Matrix := list (list Q).

Class RDKit := {
  RdMol : Type;
  Atom : Type;
  GetAdjacencyMatrix : RdMol -> Matrix;
  (** [GetMolFrags(asMols=True, sanitizeFrags=False)]: fresh molecules. *)
  GetMolFrags : RdMol -> Result (list RdMol);
  (** [SanitizeMol] works in place: the result is the molecule afterwards. *)
  SanitizeMol : RdMol -> Result RdMol;
  GetAtoms : RdMol -> list Atom;
  GetNumImplicitHs : Atom -> nat;
  GetNumRadicalElectrons : Atom -> nat;
  MolToSmiles : RdMol -> Result string;
}.

(** The attributes of a generated molecule that the metrics read;
    [TorchTensor] stands for the opaque bond and charge tensors. *)
Record Molecule `{RDKit} {TorchTensor : Type} := {
  rdkit_mol : option RdMol;
  bond_types : option TorchTensor;
  charges : option TorchTensor;
}.
Arguments Molecule {_} TorchTensor.

(** ** The state of a [BasicMolecularMetrics] instance *)

Record Metrics := {
  atom_stable : MeanMetric;
  mol_stable : MeanMetric;
  validity_metric : MeanMetric;
  uniqueness : MeanMetric;
  novelty : MeanMetric;
  mean_components : MeanMetric;
  max_components : MaxMetric;
  num_nodes_w1 : MeanMetric;
  atom_types_tv : MeanMetric;
  edge_types_tv : MeanMetric;
  charge_w1 : MeanMetric;
  valency_w1 : MeanMetric;
  bond_lengths_w1 : MeanMetric;
  angles_w1 : MeanMetric;
  dihedrals_w1 : MeanMetric;
}.

Definition set_atom_stable (v : MeanMetric) (m : Metrics) : Metrics :=
  {| atom_stable := v; mol_stable := mol_stable m;
     validity_metric := validity_metric m; uniqueness := uniqueness m;
     novelty := novelty m; mean_components := mean_components m;
     max_components := max_components m; num_nodes_w1 := num_nodes_w1 m;
     atom_types_tv := atom_types_tv m; edge_types_tv := edge_types_tv m;
     charge_w1 := charge_w1 m; valency_w1 := valency_w1 m;
     bond_lengths_w1 := bond_lengths_w1 m; angles_w1 := angles_w1 m;
     dihedrals_w1 := dihedrals_w1 m |}.

Definition set_mol_stable (v : MeanMetric) (m : Metrics) : Metrics :=
  {| atom_stable := atom_stable m; mol_stable := v;
     validity_metric := validity_metric m; uniqueness := uniqueness m;
     novelty := novelty m; mean_components := mean_components m;
     max_components := max_components m; num_nodes_w1 := num_nodes_w1 m;
     atom_types_tv := atom_types_tv m; edge_types_tv := edge_types_tv m;
     charge_w1 := charge_w1 m; valency_w1 := valency_w1 m;
     bond_lengths_w1 := bond_lengths_w1 m; angles_w1 := angles_w1 m;
     dihedrals_w1 := dihedrals_w1 m |}.

Definition set_validity_metric (v : MeanMetric) (m : Metrics) : Metrics :=
  {| atom_stable := atom_stable m; mol_stable := mol_stable m;
     validity_metric := v; uniqueness := uniqueness m; novelty := novelty m;
     mean_components := mean_components m;
     max_components := max_components m; num_nodes_w1 := num_nodes_w1 m;
     atom_types_tv := atom_types_tv m; edge_types_tv := edge_types_tv m;
     charge_w1 := charge_w1 m; valency_w1 := valency_w1 m;
     bond_lengths_w1 := bond_lengths_w1 m; angles_w1 := angles_w1 m;
     dihedrals_w1 := dihedrals_w1 m |}.

Definition set_uniqueness (v : MeanMetric) (m : Metrics) : Metrics :=
  {| atom_stable := atom_stable m; mol_stable := mol_stable m;
     validity_metric := validity_metric m; uniqueness := v;
     novelty := novelty m; mean_components := mean_components m;
     max_components := max_components m; num_nodes_w1 := num_nodes_w1 m;
     atom_types_tv := atom_types_tv m; edge_types_tv := edge_types_tv m;
     charge_w1 := charge_w1 m; valency_w1 := valency_w1 m;
     bond_lengths_w1 := bond_lengths_w1 m; angles_w1 := angles_w1 m;
     dihedrals_w1 := dihedrals_w1 m |}.

Definition set_novelty (v : MeanMetric) (m : Metrics) : Metrics :=
  {| atom_stable := atom_stable m; mol_stable := mol_stable m;
     validity_metric := validity_metric m; uniqueness := uniqueness m;
     novelty := v; mean_components := mean_components m;
     max_components := max_components m; num_nodes_w1 := num_nodes_w1 m;
     atom_types_tv := atom_types_tv m; edge_types_tv := edge_types_tv m;
     charge_w1 := charge_w1 m; valency_w1 := valency_w1 m;
     bond_lengths_w1 := bond_lengths_w1 m; angles_w1 := angles_w1 m;
     dihedrals_w1 := dihedrals_w1 m |}.

Definition set_mean_components (v : MeanMetric) (m : Metrics) : Metrics :=
  {| atom_stable := atom_stable m; mol_stable := mol_stable m;
     validity_metric := validity_metric m; uniqueness := uniqueness m;
     novelty := novelty m; mean_components := v;
     max_components := max_components m; num_nodes_w1 := num_nodes_w1 m;
     atom_types_tv := atom_types_tv m; edge_types_tv := edge_types_tv m;
     charge_w1 := charge_w1 m; valency_w1 := valency_w1 m;
     bond_lengths_w1 := bond_lengths_w1 m; angles_w1 := angles_w1 m;
     dihedrals_w1 := dihedrals_w1 m |}.

Definition set_max_components (v : MaxMetric) (m : Metrics) : Metrics :=
  {| atom_stable := atom_stable m; mol_stable := mol_stable m;
     validity_metric := validity_metric m; uniqueness := uniqueness m;
     novelty := novelty m; mean_components := mean_components m;
     max_components := v; num_nodes_w1 := num_nodes_w1 m;
     atom_types_tv := atom_types_tv m; edge_types_tv := edge_types_tv m;
     charge_w1 := charge_w1 m; valency_w1 := valency_w1 m;
     bond_lengths_w1 := bond_lengths_w1 m; angles_w1 := angles_w1 m;
     dihedrals_w1 := dihedrals_w1 m |}.

Definition set_num_nodes_w1 (v : MeanMetric) (m : Metrics) : Metrics :=
  {| atom_stable := atom_stable m; mol_stable := mol_stable m;
     validity_metric := validity_metric m; uniqueness := uniqueness m;
     novelty := novelty m; mean_components := mean_components m;
     max_components := max_components m; num_nodes_w1 := v;
     atom_types_tv := atom_types_tv m; edge_types_tv := edge_types_tv m;
     charge_w1 := charge_w1 m; valency_w1 := valency_w1 m;
     bond_lengths_w1 := bond_lengths_w1 m; angles_w1 := angles_w1 m;
     dihedrals_w1 := dihedrals_w1 m |}.

Definition set_atom_types_tv (v : MeanMetric) (m : Metrics) : Metrics :=
  {| atom_stable := atom_stable m; mol_stable := mol_stable m;
     validity_metric := validity_metric m; uniqueness := uniqueness m;
     novelty := novelty m; mean_components := mean_components m;
     max_components := max_components m; num_nodes_w1 := num_nodes_w1 m;
     atom_types_tv := v; edge_types_tv := edge_types_tv m;
     charge_w1 := charge_w1 m; valency_w1 := valency_w1 m;
     bond_lengths_w1 := bond_lengths_w1 m; angles_w1 := angles_w1 m;
     dihedrals_w1 := dihedrals_w1 m |}.

Definition set_edge_types_tv (v : MeanMetric) (m : Metrics) : Metrics :=
  {| atom_stable := atom_stable m; mol_stable := mol_stable m;
     validity_metric := validity_metric m; uniqueness := uniqueness m;
     novelty := novelty m; mean_components := mean_components m;
     max_components := max_components m; num_nodes_w1 := num_nodes_w1 m;
     atom_types_tv := atom_types_tv m; edge_types_tv := v;
     charge_w1 := charge_w1 m; valency_w1 := valency_w1 m;
     bond_lengths_w1 := bond_lengths_w1 m; angles_w1 := angles_w1 m;
     dihedrals_w1 := dihedrals_w1 m |}.

Definition set_charge_w1 (v : MeanMetric) (m : Metrics) : Metrics :=
  {| atom_stable := atom_stable m; mol_stable := mol_stable m;
     validity_metric := validity_metric m; uniqueness := uniqueness m;
     novelty := novelty m; mean_components := mean_components m;
     max_components := max_components m; num_nodes_w1 := num_nodes_w1 m;
     atom_types_tv := atom_types_tv m; edge_types_tv := edge_types_tv m;
     charge_w1 := v; valency_w1 := valency_w1 m;
     bond_lengths_w1 := bond_lengths_w1 m; angles_w1 := angles_w1 m;
     dihedrals_w1 := dihedrals_w1 m |}.

Definition set_valency_w1 (v : MeanMetric) (m : Metrics) : Metrics :=
  {| atom_stable := atom_stable m; mol_stable := mol_stable m;
     validity_metric := validity_metric m; uniqueness := uniqueness m;
     novelty := novelty m; mean_components := mean_components m;
     max_components := max_components m; num_nodes_w1 := num_nodes_w1 m;
     atom_types_tv := atom_types_tv m; edge_types_tv := edge_types_tv m;
     charge_w1 := charge_w1 m; valency_w1 := v;
     bond_lengths_w1 := bond_lengths_w1 m; angles_w1 := angles_w1 m;
     dihedrals_w1 := dihedrals_w1 m |}.

Definition set_bond_lengths_w1 (v : MeanMetric) (m : Metrics) : Metrics :=
  {| atom_stable := atom_stable m; mol_stable := mol_stable m;
     validity_metric := validity_metric m; uniqueness := uniqueness m;
     novelty := novelty m; mean_components := mean_components m;
     max_components := max_components m; num_nodes_w1 := num_nodes_w1 m;
     atom_types_tv := atom_types_tv m; edge_types_tv := edge_types_tv m;
     charge_w1 := charge_w1 m; valency_w1 := valency_w1 m;
     bond_lengths_w1 := v; angles_w1 := angles_w1 m;
     dihedrals_w1 := dihedrals_w1 m |}.

Definition set_angles_w1 (v : MeanMetric) (m : Metrics) : Metrics :=
  {| atom_stable := atom_stable m; mol_stable := mol_stable m;
     validity_metric := validity_metric m; uniqueness := uniqueness m;
     novelty := novelty m; mean_components := mean_components m;
     max_components := max_components m; num_nodes_w1 := num_nodes_w1 m;
     atom_types_tv := atom_types_tv m; edge_types_tv := edge_types_tv m;
     charge_w1 := charge_w1 m; valency_w1 := valency_w1 m;
     bond_lengths_w1 := bond_lengths_w1 m; angles_w1 := v;
     dihedrals_w1 := dihedrals_w1 m |}.

Definition set_dihedrals_w1 (v : MeanMetric) (m : Metrics) : Metrics :=
  {| atom_stable := atom_stable m; mol_stable := mol_stable m;
     validity_metric := validity_metric m; uniqueness := uniqueness m;
     novelty := novelty m; mean_components := mean_components m;
     max_components := max_components m; num_nodes_w1 := num_nodes_w1 m;
     atom_types_tv := atom_types_tv m; edge_types_tv := edge_types_tv m;
     charge_w1 := charge_w1 m; valency_w1 := valency_w1 m;
     bond_lengths_w1 := bond_lengths_w1 m; angles_w1 := angles_w1 m;
     dihedrals_w1 := v |}.

(** All accumulators as [__init__] and [reset] leave them. *)
Definition fresh_metrics : Metrics :=
  {| atom_stable := mean_init; mol_stable := mean_init;
     validity_metric := mean_init; uniqueness := mean_init;
     novelty := mean_init; mean_components := mean_init;
     max_components := max_init; num_nodes_w1 := mean_init;
     atom_types_tv := mean_init; edge_types_tv := mean_init;
     charge_w1 := mean_init; valency_w1 := mean_init;
     bond_lengths_w1 := mean_init; angles_w1 := mean_init;
     dihedrals_w1 := mean_init |}.

(** A [for] loop whose body may raise, over a loop-local state. *)
Fixpoint for_each {S X : Type} (body : S -> X -> Result S) (s : S) (xs : list X)
    : Result S :=
  match xs with
  | [] => Ok s
  | x :: xs' =>
      match body s x with
      | Ok s' => for_each body s' xs'
      | Raise e => Raise e
      end
  end.

Lemma for_each_cons {S X : Type} (body : S -> X -> Result S) (s : S) (x : X)
    (xs : list X) :
  for_each body s (x :: xs)
  = match body s x with
    | Ok s' => for_each body s' xs
    | Raise e => Raise e
    end.
Proof. reflexivity. Qed.

(** [enumerate(l)]. *)
Definition enumerate {X : Type} (l : list X) : list (nat * X) :=
  zip (seq 0 (length l)) l.

Class SamplingUtils `{RDKit} := {
  TorchTensor : Type;
  Fingerprint : Type;
  Descriptors : Type;
  (** [canonicalize_list(smiles, include_stereocenters)]: the canonical
      strings and the indices of the duplicates that were dropped. *)
  canonicalize_list : bool -> list string -> list string * list nat;
  get_fingerprints_from_smileslist : list string -> list Fingerprint;
  (** [get_random_subset(dataset, subset_size, seed=42)]. *)
  get_random_subset : list string -> nat -> list string;
  TanimotoSimilarity : Fingerprint -> Fingerprint -> Q;
  get_similarity : Fingerprint * Fingerprint -> Q;
  (** [(mol_stable, at_stable, num_bonds)]. *)
  check_stability : Molecule TorchTensor -> bool * Q * Q;
  check_stability_without_bonds : Molecule TorchTensor -> bool * Q * Q;
  (** The distances to the reference statistics of the chosen split; the
      flag is [self.test]. *)
  number_nodes_distance : bool -> list (Molecule TorchTensor) -> Q;
  atom_types_distance : bool -> list (Molecule TorchTensor) -> Q * list Q;
  charge_distance : bool -> list (Molecule TorchTensor) -> Q * list Q;
  (** [(edge_types_tv, bond_tv_per_class, sparsity_level)]. *)
  bond_types_distance : bool -> list (Molecule TorchTensor) -> Q * list Q * Q;
  valency_distance : bool -> list (Molecule TorchTensor) -> Q * list Q;
  bond_length_distance : bool -> list (Molecule TorchTensor) -> Q * list Q;
  angle_distance : bool -> list (Molecule TorchTensor) -> Q * list Q;
  dihedral_distance : bool -> list (Molecule TorchTensor) -> Q * list Q;
  (** [len(dataset_info.atom_decoder)]. *)
  num_atom_types : nat;
  (** Descriptor arrays and the divergences computed from their columns. *)
  calculate_pc_descriptors : list string -> list string -> Descriptors;
  column : Descriptors -> nat -> list R;
  continuous_kldiv : list R -> list R -> R;
  discrete_kldiv : list R -> list R -> R;
  (** [calculate_internal_pairwise_similarities(smiles).max(axis=1)]. *)
  internal_similarity_max : list string -> list R;
  (** [np.mean([qed(mol) for mol in get_mols_list(smiles)])]. *)
  mean_qed : list string -> fval;
}.

(** [BulkTanimotoSimilarity(fp, fps)]: the similarity of [fp] to each
    element of [fps], in order. *)
Definition BulkTanimotoSimilarity `{SamplingUtils} (fp : Fingerprint)
    (fps : list Fingerprint) : list Q :=
  TanimotoSimilarity fp <$> fps.

(** ** BasicMolecularMetrics *)

Module BasicMolecularMetrics.
Section Methods.
Context `{SamplingUtils}.

Local Abbreviation Mol := (Molecule TorchTensor).

(** What the methods print, line by line (the data of each line, not its
    formatting). *)
Inductive Line :=
| PrintAnalyzingStability
| PrintErrorMessages (error_message : gmap string nat)
| PrintNoveltySkipped
| PrintValidity (num_molecules : Q) (validity : fval)
| PrintComponents (num_molecules : Q) (mean_components : fval) (max_components : MaxMetric)
| PrintConnected (num_molecules : Q) (connected_components : Q)
| PrintSparsity (local_rank : Z) (sparsity_level : Q)
| PrintTooManyEdges
| PrintNoSmilesKL
| PrintNoSmilesQED.

(** The mutable attributes of the instance, and the standard output.
    [train_smiles] is optional because the methods test it against
    [None]; [train_subset] does not exist before [__call__] assigns it. *)
Record State := {
  metrics : Metrics;
  train_smiles : option (list string);
  train_fps : list Fingerprint;
  test : bool;
  number_samples : nat;
  train_subset : option (list string);
  stdout : list Line;
  (** Ghost: how often [angle_distance] has been called. *)
  angle_distance_calls : nat;
}.

Definition set_metrics (m : Metrics) (s : State) : State :=
  {| metrics := m; train_smiles := train_smiles s; train_fps := train_fps s;
     test := test s; number_samples := number_samples s;
     train_subset := train_subset s; stdout := stdout s;
     angle_distance_calls := angle_distance_calls s |}.

Definition set_number_samples (n : nat) (s : State) : State :=
  {| metrics := metrics s; train_smiles := train_smiles s;
     train_fps := train_fps s; test := test s; number_samples := n;
     train_subset := train_subset s; stdout := stdout s;
     angle_distance_calls := angle_distance_calls s |}.

Definition set_train_subset (t : list string) (s : State) : State :=
  {| metrics := metrics s; train_smiles := train_smiles s;
     train_fps := train_fps s; test := test s;
     number_samples := number_samples s; train_subset := Some t;
     stdout := stdout s; angle_distance_calls := angle_distance_calls s |}.

Definition add_line (l : Line) (s : State) : State :=
  {| metrics := metrics s; train_smiles := train_smiles s;
     train_fps := train_fps s; test := test s;
     number_samples := number_samples s; train_subset := train_subset s;
     stdout := stdout s ++ [l];
     angle_distance_calls := angle_distance_calls s |}.

Definition note_angle_distance_call (s : State) : State :=
  {| metrics := metrics s; train_smiles := train_smiles s;
     train_fps := train_fps s; test := test s;
     number_samples := number_samples s; train_subset := train_subset s;
     stdout := stdout s; angle_distance_calls := S (angle_distance_calls s) |}.

(** The monad of methods: state and exceptions.

    A method maps the state before the call to its result, or the
    exception it raises, and the state at that point. *)
Definition M (A : Type) : Type := State -> Result A * State.

Definition ret {A} (a : A) : M A := fun s => (Ok a, s).

Definition bind {A B} (m : M A) (k : A -> M B) : M B :=
  fun s => match m s with
           | (Ok a, s') => k a s'
           | (Raise e, s') => (Raise e, s')
           end.

Definition raise {A} (e : Exn) : M A := fun s => (Raise e, s).

Definition lift {A} (r : Result A) : M A := fun s => (r, s).

Definition get_state : M State := fun s => (Ok s, s).

Definition modify (f : State -> State) : M unit := fun s => (Ok tt, f s).

Definition modify_metrics (f : Metrics -> Metrics) : M unit :=
  modify (fun s => set_metrics (f (metrics s)) s).

Definition print (l : Line) : M unit := modify (add_line l).

Definition when (b : bool) (m : M unit) : M unit := if b then m else ret tt.

#[local] Instance M_ret : MRet M := @ret.
#[local] Instance M_bind : MBind M := fun A B k m => bind m k.

(** [reset]: every accumulator of the list is reset. *)
Definition reset : M unit := modify_metrics (fun _ => fresh_metrics).

(** [np.all(np.abs(a - b) < 1)] on two matrices of one shape. *)
Definition np_all_abs_diff_lt_1 (a b : Matrix) : bool :=
  forallb (fun rows : list Q * list Q =>
             forallb (fun xy : Q * Q => Qltb (Qabs (xy.1 - xy.2)) 1)
                     (zip rows.1 rows.2))
          (zip a b).

(** The local variables of [compute_validity] that its loop updates. *)
Record VState := {
  valid_smiles : list string;
  valid_ids : list nat;
  valid_molecules : list Mol;
  num_components : list nat;
  error_message : gmap string nat;
}.

Definition vstate_init : VState :=
  {| valid_smiles := []; valid_ids := []; valid_molecules := [];
     num_components := []; error_message := ∅ |}.

(** [error_message[k] += 1]. *)
Definition count (k : string) (v : VState) : VState :=
  {| valid_smiles := valid_smiles v; valid_ids := valid_ids v;
     valid_molecules := valid_molecules v;
     num_components := num_components v;
     error_message := counter_incr k (error_message v) |}.

(** [num_components.append(n)]. *)
Definition append_components (n : nat) (v : VState) : VState :=
  {| valid_smiles := valid_smiles v; valid_ids := valid_ids v;
     valid_molecules := valid_molecules v;
     num_components := num_components v ++ [n];
     error_message := error_message v |}.

(** The three [append]s of a molecule that passes. *)
Definition append_valid (smiles : string) (i : nat) (mol : Mol) (v : VState) : VState :=
  {| valid_smiles := valid_smiles v ++ [smiles];
     valid_ids := valid_ids v ++ [i];
     valid_molecules := valid_molecules v ++ [mol];
     num_components := num_components v;
     error_message := error_message v |}.

Definition total_implicit_hs (rdmol : RdMol) : nat :=
  sum_list (GetNumImplicitHs <$> GetAtoms rdmol).

Definition total_radical_electrons (rdmol : RdMol) : nat :=
  sum_list (GetNumRadicalElectrons <$> GetAtoms rdmol).

(** The [try] block of the loop: the local state when the block is left,
    and the exception if it is left by one. *)
Definition try_block (strict : bool) (v : VState) (i : nat) (mol : Mol)
    (rdmol : RdMol) (initial_adj : Matrix) : VState * option Exn :=
  match GetMolFrags rdmol with
  | Raise e => (v, Some e)
  | Ok mol_frags =>
      let v := append_components (length mol_frags) v in
      if (1 <? length mol_frags)%nat then (count "disconnected" v, None)
      else
        match mol_frags with
        | [] => (v, Some IndexError)
        | frag :: _ =>
            match SanitizeMol frag with
            | Raise e => (v, Some e)
            | Ok rdmol =>
                if (0 <? total_implicit_hs rdmol)%nat
                then (count "implicit_hydrogens" v, None)
                else if strict && negb (np_all_abs_diff_lt_1 initial_adj
                                          (GetAdjacencyMatrix rdmol))
                then (count "wrong_bo" v, None)
                else if strict && (0 <? total_radical_electrons rdmol)%nat
                then (count "radicals" v, None)
                else
                  match MolToSmiles rdmol with
                  | Raise e => (v, Some e)
                  | Ok smiles => (count "passed" (append_valid smiles i mol v), None)
                  end
            end
        end
  end.

(** One iteration of [for i, mol in enumerate(generated)], with the
    [except] clauses in their order; an exception none of them catches
    leaves the method. *)
Definition validity_body (strict : bool) (v : VState) (im : nat * Mol)
    : Result VState :=
  let '(i, mol) := im in
  match rdkit_mol mol with
  | None => Ok v
  | Some rdmol =>
      let initial_adj := GetAdjacencyMatrix rdmol in
      match try_block strict v i mol rdmol initial_adj with
      | (v', None) => Ok v'
      | (v', Some AtomValenceException) => Ok (count "wrong_atom_valence" v')
      | (v', Some KekulizeException) => Ok (count "kekulization" v')
      | (v', Some e) =>
          if is_ValueError e then Ok (count "other" v') else Raise e
      end
  end.

Definition nat_to_Q (n : nat) : Q := inject_Z (Z.of_nat n).

(** [x / n] for a float [x] and an [int] [n]. *)
Definition py_float_div (x : Q) (n : nat) : Result Q :=
  if (n =? 0)%nat then Raise ZeroDivisionError else Ok (x / nat_to_Q n).

Definition compute_validity (generated : list Mol) (local_rank : Z) (strict : bool)
    : M (list string * list Mol * Q * gmap string nat) :=
  v ← lift (for_each (validity_body strict) vstate_init (enumerate generated));
  when (local_rank =? 0)%Z (print (PrintErrorMessages (error_message v)));;
  value ← lift (py_truediv (length (valid_smiles v)) (length generated));
  modify_metrics (fun m =>
        set_validity_metric
          (mean_update value (nat_to_Q (length generated)) (validity_metric m)) m);;
  let components := nat_to_Q <$> num_components v in
  modify_metrics (fun m =>
        set_mean_components (mean_update_tensor components (mean_components m)) m);;
  modify_metrics (fun m =>
        set_max_components (max_update_tensor components (max_components m)) m);;
  not_connected ←
    lift (py_float_div (100 * nat_to_Q (counter_get "disconnected" (error_message v)))
                       (length generated));
  let connected_components := 100 - not_connected in
  let '(smiles, duplicate_ids) := canonicalize_list true (valid_smiles v) in
  let molecules :=
    snd <$> filter (fun im : nat * Mol => im.1 ∉ duplicate_ids)
                   (enumerate (valid_molecules v)) in
  ret (smiles, molecules, connected_components, error_message v).

(** [compute_sanitize_validity].  [SanitizeMol(None)] is an argument
    error, which is a [TypeError] and so passes the [except] clause. *)
Definition sanitize_body (valid : list RdMol) (mol : Mol) : Result (list RdMol) :=
  match rdkit_mol mol with
  | None => Raise TypeError
  | Some rdmol =>
      match SanitizeMol rdmol with
      | Ok rdmol' => Ok (valid ++ [rdmol'])
      | Raise e => if is_ValueError e then Ok valid else Raise e
      end
  end.

Definition compute_sanitize_validity (generated : list Mol) : Result Q :=
  if (length generated <? 1)%nat then Ok (-1)
  else
    match for_each sanitize_body [] generated with
    | Ok valid => py_truediv (length valid) (length generated)
    | Raise e => Raise e
    end.

(** [list(set(l))]: the distinct elements, in some order. *)
Definition list_set (l : list string) : list string :=
  elements (list_to_set l : gset string).

Definition compute_uniqueness (valid : list string) : Result (list string * Q) :=
  match py_truediv (length (list_set valid)) (length valid) with
  | Ok ratio => Ok (list_set valid, ratio)
  | Raise e => Raise e
  end.

(** What [compute_novelty] returns: the pair of [int]s [(1, 1)] of the
    degraded mode, or the novel strings and their share. *)
Inductive NoveltyResult :=
| NoveltySkipped (a b : Z)
| NoveltyOf (novel : list string) (ratio : Q).

Definition compute_novelty (unique : list string) : M NoveltyResult :=
  s ← get_state;
  match train_smiles s with
  | None => print PrintNoveltySkipped;; ret (NoveltySkipped 1 1)
  | Some train =>
      let novel := filter (fun smiles => smiles ∉ train) unique in
      ratio ← lift (py_truediv (length novel) (length unique));
      ret (NoveltyOf novel ratio)
  end.

(** A value that is either a Python [int] or a zero-dimensional tensor. *)
Inductive PyNum :=
| PyInt (n : Z)
| PyTensor (v : fval).

(** [x if isinstance(x, int) else x.item()]. *)
Definition item (x : PyNum) : fval :=
  match x with
  | PyInt n => Fin (inject_Z n)
  | PyTensor v => v
  end.

(** The body of [if len(valid_smiles) > 0:] in [evaluate]. *)
Definition evaluate_unique (smiles : list string) : M (PyNum * PyNum) :=
  let unique := list_set smiles in
  value ← lift (py_truediv (length unique) (length smiles));
  modify_metrics (fun m =>
    set_uniqueness (mean_update value (nat_to_Q (length smiles)) (uniqueness m)) m);;
  s ← get_state;
  let uniqueness_value := mean_compute (uniqueness (metrics s)) in
  match train_smiles s with
  | Some train =>
      let novel := filter (fun x => x ∉ train) unique in
      value ← lift (py_truediv (length novel) (length unique));
      modify_metrics (fun m =>
        set_novelty (mean_update value (nat_to_Q (length unique)) (novelty m)) m)
  | None => ret tt
  end;;
  s ← get_state;
  ret (PyTensor uniqueness_value, PyTensor (mean_compute (novelty (metrics s)))).

(** [evaluate] returns
    [(valid_mols, valid_smiles, validity, novelty, uniqueness,
      connected_components)]. *)
Definition evaluate (generated : list Mol) (local_rank : Z)
    : M (list Mol * list string * fval * PyNum * PyNum * Q) :=
  '(smiles, valid_mols, connected_components, _) ←
    compute_validity generated local_rank true;
  s ← get_state;
  let validity := mean_compute (validity_metric (metrics s)) in
  let mean_comp := mean_compute (mean_components (metrics s)) in
  let max_comp := max_compute (max_components (metrics s)) in
  '(uniqueness_value, novelty_value) ←
    (if (0 <? length smiles)%nat then evaluate_unique smiles
     else ret (PyInt 0, PyInt 0));
  s ← get_state;
  let num_molecules := weight (validity_metric (metrics s)) in
  when (local_rank =? 0)%Z
    (print (PrintValidity num_molecules validity);;
     print (PrintComponents num_molecules mean_comp max_comp);;
     print (PrintConnected num_molecules connected_components));;
  ret (valid_mols, smiles, validity, novelty_value, uniqueness_value,
       connected_components).

(** [self.metric(value)]: the forward call adds [value] with weight one. *)
Definition forward (get : Metrics -> MeanMetric)
    (set : MeanMetric -> Metrics -> Metrics) (value : Q) : M unit :=
  modify_metrics (fun m => set (mean_update value 1 (get m)) m).

(** The cutoff of the angle computation. *)
Definition sparsity_threshold : Q := 7 # 10.

(** The [if sparsity_level < 0.7: ... else: ...] statement of
    [compute_statistics]: [(angles_w1, angles_w1_per_type)]. *)
Definition angle_step (molecules : list Mol) (local_rank : Z) (sparsity_level : Q)
    : M (Q * list Q) :=
  if Qltb sparsity_level sparsity_threshold then
    when (local_rank =? 0)%Z (print PrintTooManyEdges);;
    ret (0, replicate num_atom_types (-1))
  else
    s ← get_state;
    modify note_angle_distance_call;;
    ret (angle_distance (test s) molecules).

(** The body of [if molecules[0].bond_types is not None:]. *)
Definition bond_statistics (molecules : list Mol) (local_rank : Z) : M unit :=
  s ← get_state;
  let '(edge_types_tv_value, _, sparsity_level) :=
    bond_types_distance (test s) molecules in
  print (PrintSparsity local_rank sparsity_level);;
  forward edge_types_tv set_edge_types_tv edge_types_tv_value;;
  let '(valency_w1_value, _) := valency_distance (test s) molecules in
  forward valency_w1 set_valency_w1 valency_w1_value;;
  let '(bond_lengths_w1_value, _) := bond_length_distance (test s) molecules in
  forward bond_lengths_w1 set_bond_lengths_w1 bond_lengths_w1_value;;
  '(angles_w1_value, _) ← angle_step molecules local_rank sparsity_level;
  forward angles_w1 set_angles_w1 angles_w1_value;;
  let '(dihedrals_w1_value, _) := dihedral_distance (test s) molecules in
  forward dihedrals_w1 set_dihedrals_w1 dihedrals_w1_value.

(** The dictionary [statistics_log], by its keys (without the prefix
    [sampling/]). *)
Record StatisticsLog := {
  NumNodesW1 : fval;
  AtomTypesTV : fval;
  EdgeTypesTV : fval;
  ChargeW1 : fval;
  ValencyW1 : fval;
  BondLengthsW1 : fval;
  AnglesW1 : fval;
  DihedralsW1 : fval;
}.

(** [metric.compute().item() if not flag else -1.0]. *)
Definition unless (flag : bool) (m : MeanMetric) : fval :=
  if flag then Fin (-1) else mean_compute m.

(** [compute_statistics].  The per-class entries are behind
    [sampling_per_class = False] and are never written. *)
Definition compute_statistics (molecules : list Mol) (local_rank : Z)
    : M StatisticsLog :=
  s ← get_state;
  forward num_nodes_w1 set_num_nodes_w1 (number_nodes_distance (test s) molecules);;
  let '(atom_types_tv_value, _) := atom_types_distance (test s) molecules in
  forward atom_types_tv set_atom_types_tv atom_types_tv_value;;
  first ← lift (match molecules with
                | [] => Raise IndexError
                | mol :: _ => Ok mol
                end);
  no_charges ←
    match charges first with
    | Some _ =>
        let '(charge_w1_value, _) := charge_distance (test s) molecules in
        forward charge_w1 set_charge_w1 charge_w1_value;; ret false
    | None => ret true
    end;
  no_bonds ←
    match bond_types first with
    | Some _ => bond_statistics molecules local_rank;; ret false
    | None => ret true
    end;
  s ← get_state;
  let m := metrics s in
  ret {| NumNodesW1 := mean_compute (num_nodes_w1 m);
         AtomTypesTV := mean_compute (atom_types_tv m);
         EdgeTypesTV := unless no_bonds (edge_types_tv m);
         ChargeW1 := unless no_charges (charge_w1 m);
         ValencyW1 := unless no_bonds (valency_w1 m);
         BondLengthsW1 := unless no_bonds (bond_lengths_w1 m);
         AnglesW1 := unless no_bonds (angles_w1 m);
         DihedralsW1 := unless no_bonds (dihedrals_w1 m) |}.

(** [max] of a non-empty array; NumPy raises [ValueError] on an empty one. *)
Definition np_max (row : list Q) : Result Q :=
  match row with
  | [] => Raise ValueError
  | x :: xs => Ok (foldl Qmax x xs)
  end.

(** The rows of [np.reshape(l, (n, -1))]. *)
Fixpoint rows_of (n width : nat) (l : list Q) : list (list Q) :=
  match n with
  | O => []
  | S n' => take width l :: rows_of n' width (drop width l)
  end.

(** [np.reshape(l, (n, -1))]: the row length is inferred, which fails when
    [n] is zero or does not divide the size. *)
Definition np_reshape (l : list Q) (n : nat) : Result (list (list Q)) :=
  if (n =? 0)%nat then Raise ValueError
  else if (length l mod n =? 0)%nat then Ok (rows_of n (length l / n) l)
  else Raise ValueError.

(** [.max(axis=1)]. *)
Definition max_axis1 (rows : list (list Q)) : Result (list Q) :=
  for_each (fun acc row => match np_max row with
                           | Ok x => Ok (acc ++ [x])
                           | Raise e => Raise e
                           end) [] rows.

(** [get_similarity_with_train].  With [parallel=True] the same list is
    produced by [Pool.imap], in the same order. *)
Definition get_similarity_with_train (generated_smiles : list string)
    (parallel : bool) : M fval :=
  s ← get_state;
  let fps := get_fingerprints_from_smileslist generated_smiles in
  let fp_pair := list_prod fps (train_fps s) in
  let similarity_list := get_similarity <$> fp_pair in
  table ← lift (np_reshape similarity_list (length generated_smiles));
  similarity_max ← lift (max_axis1 table);
  ret (np_mean similarity_max).

(** [get_bulk_similarity_with_train]: [np.mean] of the list of rows. *)
Definition get_bulk_similarity_with_train (generated_smiles : list string)
    : M fval :=
  s ← get_state;
  let fps := get_fingerprints_from_smileslist generated_smiles in
  let scores := (fun fp => BulkTanimotoSimilarity fp (train_fps s)) <$> fps in
  ret (np_mean (concat scores)).

(** [1 - x] on a float that may be [nan]. *)
Definition one_minus (x : fval) : fval :=
  match x with
  | Fin q => Fin (1 - q)
  | NaN => NaN
  end.

Definition get_bulk_diversity (generated_smiles : list string) : M fval :=
  let fps := get_fingerprints_from_smileslist generated_smiles in
  let scores :=
    imap (fun i fp => BulkTanimotoSimilarity fp (delete i fps)) fps in
  ret (one_minus (np_mean (concat scores))).

Definition pc_descriptor_subset : list string :=
  ["BertzCT"; "MolLogP"; "MolWt"; "TPSA"; "NumHAcceptors"; "NumHDonors";
   "NumRotatableBonds"; "NumAliphaticRings"; "NumAromaticRings"].

(** [d[k] = v] on a dictionary kept in insertion order. *)
Definition dict_set (k : string) (v : R) (d : list (string * R)) : list (string * R) :=
  if bool_decide (k ∈ d.*1)
  then (fun kv : string * R => if String.eqb kv.1 k then (k, v) else kv) <$> d
  else d ++ [(k, v)].

(** One of the two [for i in range(..)] loops that fill [kldivs]. *)
Definition kldiv_loop (kldiv : list R -> list R -> R) (d_chembl d_sampled : Descriptors)
    (indices : list nat) (kldivs : list (string * R)) : list (string * R) :=
  foldl (fun acc i =>
           dict_set (nth i pc_descriptor_subset ""%string)
                    (kldiv (column d_chembl i) (column d_sampled i)) acc)
        kldivs indices.

(** [sum(l)]: from zero, left to right. *)
Definition py_sum (l : list R) : R := foldl Rplus 0%R l.

Definition get_kl_divergence (generated_smiles : list string) : M R :=
  s ← get_state;
  let unique_molecules := list_set (canonicalize_list false generated_smiles).1 in
  let d_sampled := calculate_pc_descriptors unique_molecules pc_descriptor_subset in
  subset ← lift (match train_subset s with
                 | Some t => Ok t
                 | None => Raise AttributeError
                 end);
  let d_chembl := calculate_pc_descriptors subset pc_descriptor_subset in
  let kldivs := kldiv_loop continuous_kldiv d_chembl d_sampled (seq 0 4) [] in
  let kldivs := kldiv_loop discrete_kldiv d_chembl d_sampled (seq 4 5) kldivs in
  let chembl_sim := internal_similarity_max subset in
  let sampled_sim := internal_similarity_max unique_molecules in
  let kldiv_int_int := continuous_kldiv chembl_sim sampled_sim in
  let kldivs := dict_set "internal_similarity" kldiv_int_int kldivs in
  let partial_scores := (fun score => exp (- score)%R) <$> kldivs.*2 in
  ret (py_sum partial_scores / INR (length partial_scores))%R.

(** The three dictionaries that [__call__] returns. *)
Record StabilityDict := { dict_mol_stable : fval; dict_atm_stable : fval }.

Record ValidityDict := {
  dict_validity : fval;
  dict_sanitize_validity : Q;
  dict_novelty : fval;
  dict_uniqueness : fval;
}.

Record StatisticsDict := {
  dict_log : StatisticsLog;
  dict_connected_components : Q;
  dict_similarity : fval;
  dict_diversity : fval;
  dict_kl_score : R;
  dict_QED : fval;
}.

(** One iteration of the stability loop of [__call__].  [at_stable /
    num_bonds] enters with weight [num_bonds], so a molecule without
    bonds adds nothing to either component. *)
Definition stability_body (stable_molecules : list Mol) (mol : Mol) : M (list Mol) :=
  let '(is_stable, at_stable, num_bonds) :=
    match bond_types mol with
    | None => check_stability_without_bonds mol
    | Some _ => check_stability mol
    end in
  modify_metrics (fun m =>
    set_mol_stable (mean_update (if is_stable then 1 else 0) 1 (mol_stable m)) m);;
  modify_metrics (fun m =>
    set_atom_stable (mean_update (at_stable / num_bonds) num_bonds (atom_stable m)) m);;
  ret (if is_stable then stable_molecules ++ [mol] else stable_molecules).

Fixpoint stability_loop (stable_molecules : list Mol) (molecules : list Mol)
    : M (list Mol) :=
  match molecules with
  | [] => ret stable_molecules
  | mol :: rest =>
      stable_molecules ← stability_body stable_molecules mol;
      stability_loop stable_molecules rest
  end.

(** The body of [if len(valid_molecules) > 0:] in [__call__], which ends
    with [self.reset()]. *)
Definition call_statistics (valid_molecules : list Mol)
    (all_generated_smiles : list string) (connected_components : Q)
    (local_rank : Z) : M StatisticsDict :=
  log ← compute_statistics valid_molecules local_rank;
  modify (set_number_samples (length all_generated_smiles));;
  s ← get_state;
  train ← lift (match train_smiles s with
                | Some t => Ok t
                | None => Raise TypeError
                end);
  modify (set_train_subset
            (if (length all_generated_smiles <=? length train)%nat
             then get_random_subset train (number_samples s)
             else train));;
  similarity ← get_bulk_similarity_with_train all_generated_smiles;
  diversity ← get_bulk_diversity all_generated_smiles;
  kl_score ←
    (if (0 <? length all_generated_smiles)%nat
     then get_kl_divergence all_generated_smiles
     else print PrintNoSmilesKL;; ret (-1)%R);
  qeds ←
    (if (0 <? length all_generated_smiles)%nat
     then ret (mean_qed all_generated_smiles)
     else print PrintNoSmilesQED;; ret (Fin (-1)));
  reset;;
  ret {| dict_log := log; dict_connected_components := connected_components;
         dict_similarity := similarity; dict_diversity := diversity;
         dict_kl_score := kl_score; dict_QED := qeds |}.

(** [__call__(molecules, local_rank, return_molecules)]. *)
Definition __call__ (molecules : list Mol) (local_rank : Z) (return_molecules : bool)
    : M (StabilityDict * ValidityDict * option StatisticsDict
         * option (list string) * option (list Mol)) :=
  when (local_rank =? 0)%Z (print PrintAnalyzingStability);;
  stable_molecules ← stability_loop [] molecules;
  s ← get_state;
  let stability_dict :=
    {| dict_mol_stable := mean_compute (mol_stable (metrics s));
       dict_atm_stable := mean_compute (atom_stable (metrics s)) |} in
  '(valid_molecules, all_generated_smiles, validity, novelty_value,
    uniqueness_value, connected_components) ← evaluate molecules local_rank;
  sanitize_validity ← lift (compute_sanitize_validity molecules);
  let validity_dict :=
    {| dict_validity := validity; dict_sanitize_validity := sanitize_validity;
       dict_novelty := item novelty_value;
       dict_uniqueness := item uniqueness_value |} in
  statistics_dict ←
    (if (0 <? length valid_molecules)%nat
     then
       d ← call_statistics valid_molecules all_generated_smiles
             connected_components local_rank;
       ret (Some d)
     else ret None);
  if negb return_molecules || (length valid_molecules =? 0)%nat
  then ret (stability_dict, validity_dict, statistics_dict, None, None)
  else ret (stability_dict, validity_dict, statistics_dict,
            Some all_generated_smiles, Some valid_molecules).

(** ** Properties of [compute_validity] *)

(** Running a method: [bind] on a known first step. *)
Lemma bind_ok {A B} (m : M A) (k : A -> M B) (s s' : State) (a : A) :
  m s = (Ok a, s') -> (m ≫= k) s = k a s'.
Proof. intros Hm. unfold mbind, M_bind, bind. by rewrite Hm. Qed.

Lemma bind_raise {A B} (m : M A) (k : A -> M B) (s s' : State) (e : Exn) :
  m s = (Raise e, s') -> (m ≫= k) s = (Raise e, s').
Proof. intros Hm. unfold mbind, M_bind, bind. by rewrite Hm. Qed.

(** C7. On the empty list [compute_validity] is not guarded: after the
    (empty) loop and the summary line, the division by [len(generated)]
    raises [ZeroDivisionError]; no accumulator has been touched. *)
Theorem compute_validity_empty (local_rank : Z) (strict : bool) (s : State) :
  (compute_validity [] local_rank strict s).1 = Raise ZeroDivisionError /\
  metrics (compute_validity [] local_rank strict s).2 = metrics s /\
  stdout (compute_validity [] local_rank strict s).2
  = stdout s ++ (if (local_rank =? 0)%Z then [PrintErrorMessages ∅] else []).
Proof.
  unfold compute_validity.
  rewrite (bind_ok _ _ s s vstate_init) by reflexivity.
  destruct (local_rank =? 0)%Z.
  - erewrite bind_ok by reflexivity.
    erewrite bind_raise by reflexivity. by repeat split.
  - erewrite bind_ok by reflexivity.
    erewrite bind_raise by reflexivity. repeat split. simpl. by rewrite app_nil_r.
Qed.

(** The local state after one molecule differs from the state before in
    exactly one error category. *)
Lemma try_block_one_category (strict : bool) (v v' : VState) (i : nat) (mol : Mol)
    (rdmol : RdMol) (adj : Matrix) (r : option Exn) :
  try_block strict v i mol rdmol adj = (v', r) ->
  match r with
  | None => exists k, error_message v' = counter_incr k (error_message v)
  | Some _ => error_message v' = error_message v
  end.
Proof.
  unfold try_block. intros Htry.
  repeat (match type of Htry with
          | context [match ?x with _ => _ end] => destruct x eqn:?
          end; simpl in Htry);
    injection Htry as <- <-; simpl; eauto.
Qed.

Lemma validity_body_one_category (strict : bool) (v v' : VState) (i : nat) (mol : Mol) :
  rdkit_mol mol ≠ None ->
  validity_body strict v (i, mol) = Ok v' ->
  exists k, error_message v' = counter_incr k (error_message v).
Proof.
  intros Hmol. unfold validity_body.
  destruct (rdkit_mol mol) as [rdmol|]; [|done].
  destruct (try_block _ _ _ _ _ _) as [w r] eqn:Htry.
  apply try_block_one_category in Htry.
  destruct r as [e|].
  - destruct e; simpl; intros Hv; try discriminate; injection Hv as <-;
      simpl; rewrite Htry; eauto.
  - intros Hv. injection Hv as <-. exact Htry.
Qed.

(** Loop invariant of the classification loop. *)
Lemma validity_loop_total (strict : bool) (ims : list (nat * Mol)) (v v' : VState) :
  Forall (fun im : nat * Mol => rdkit_mol im.2 ≠ None) ims ->
  for_each (validity_body strict) v ims = Ok v' ->
  counter_total (error_message v') = (counter_total (error_message v) + length ims)%nat.
Proof.
  intros Hall. revert v. induction Hall as [|[i mol] ims Hmol _ IH]; intros v.
  - simpl. intros Hv. injection Hv as <-. lia.
  - rewrite for_each_cons, length_cons.
    destruct (validity_body strict v (i, mol)) as [w|e] eqn:Hbody; [|discriminate].
    intros Hloop. apply IH in Hloop. rewrite Hloop.
    apply validity_body_one_category in Hbody as [k ->]; [|exact Hmol].
    rewrite counter_total_incr. lia.
Qed.

Lemma enumerate_length {X} (l : list X) : length (enumerate l) = length l.
Proof. unfold enumerate. rewrite length_zip, length_seq. lia. Qed.

Lemma enumerate_Forall {X} (P : X -> Prop) (l : list X) :
  Forall P l -> Forall (fun ix : nat * X => P ix.2) (enumerate l).
Proof.
  unfold enumerate. generalize 0%nat. intros n Hl. revert n.
  induction Hl as [|x l Hx _ IH]; intros n; simpl; constructor; auto.
Qed.

(** What [compute_validity] returns is read off the loop's final state. *)
Lemma compute_validity_ok (generated : list Mol) (local_rank : Z) (strict : bool)
    (s s' : State) (smiles : list string) (mols : list Mol) (cc : Q)
    (err : gmap string nat) :
  compute_validity generated local_rank strict s = (Ok (smiles, mols, cc, err), s') ->
  exists v, for_each (validity_body strict) vstate_init (enumerate generated) = Ok v /\
            err = error_message v.
Proof.
  unfold compute_validity, mbind, M_bind, bind, lift, when, print, modify_metrics,
    modify, ret.
  destruct (for_each _ _ _) as [v|e]; [|done].
  intros Hrun. exists v. split; [done|].
  destruct (local_rank =? 0)%Z;
    destruct (py_truediv _ _); try done;
    destruct (py_float_div _ _); try done;
    destruct (canonicalize_list _ _); by injection Hrun as _ _ _ <- _.
Qed.

(** C6. When every molecule has an RDKit molecule, each molecule lands in
    exactly one error category (["passed"] included), so the counts that
    [compute_validity] returns add up to the number of input molecules. *)
Theorem error_counts_sum_to_input (generated : list Mol) (local_rank : Z)
    (strict : bool) (s s' : State) (smiles : list string) (mols : list Mol)
    (cc : Q) (err : gmap string nat) :
  Forall (fun mol : Mol => rdkit_mol mol ≠ None) generated ->
  compute_validity generated local_rank strict s = (Ok (smiles, mols, cc, err), s') ->
  counter_total err = length generated.
Proof.
  intros Hall Hrun.
  apply compute_validity_ok in Hrun as (v & Hloop & ->).
  apply validity_loop_total in Hloop;
    [|exact (enumerate_Forall (fun mol : Mol => rdkit_mol mol ≠ None) _ Hall)].
  rewrite Hloop, enumerate_length. reflexivity.
Qed.

(** *** The strict checks *)

(** The entry [a[i][j]] of a matrix. *)
Definition entry (a : Matrix) (i j : nat) : option Q :=
  a !! i ≫= fun row => row !! j.

(** Some entry differs between [a] and [b] by more than [tol]. *)
Definition changed_by_more_than (tol : Q) (a b : Matrix) : Prop :=
  exists (i j : nat) (x y : Q),
    entry a i j = Some x /\ entry b i j = Some y /\ tol < Qabs (x - y).

(** Some entry differs between [a] and [b] by at least [tol]. *)
Definition changed_by_at_least (tol : Q) (a b : Matrix) : Prop :=
  exists (i j : nat) (x y : Q),
    entry a i j = Some x /\ entry b i j = Some y /\ tol <= Qabs (x - y).

(** RDKit's bond orders are multiples of one half (0, 1, 1.5, 2, ...). *)
Definition half_integral (q : Q) : Prop := exists k : Z, q == k # 2.

Definition half_integral_matrix (a : Matrix) : Prop :=
  Forall (Forall half_integral) a.

(** Molecule [mol] left the loop body excluded under category [k]. *)
Definition excluded_as (k : string) (v v' : VState) : Prop :=
  error_message v' = counter_incr k (error_message v) /\
  valid_smiles v' = valid_smiles v /\
  valid_molecules v' = valid_molecules v.

Lemma forallb_zip_false {X Y : Type} (f : X * Y -> bool) (l1 : list X) (l2 : list Y) :
  forallb f (zip l1 l2) = false <->
  exists (j : nat) (x : X) (y : Y),
    l1 !! j = Some x /\ l2 !! j = Some y /\ f (x, y) = false.
Proof.
  revert l2. induction l1 as [|x l1 IH]; intros l2.
  - simpl. split; [done|]. intros (j & x & y & Hx & _). by destruct j.
  - destruct l2 as [|y l2].
    + simpl. split; [done|]. intros (j & x' & y' & _ & Hy & _). by destruct j.
    + simpl. rewrite andb_false_iff, IH. split.
      * intros [Hf | (j & x' & y' & Hx & Hy & Hf)].
        -- by exists 0%nat, x, y.
        -- by exists (S j), x', y'.
      * intros (j & x' & y' & Hx & Hy & Hf). destruct j as [|j]; simpl in Hx, Hy.
        -- left. congruence.
        -- right. by exists j, x', y'.
Qed.

(** The NumPy test fails exactly when some entry moves by one or more. *)
Lemma np_all_abs_diff_lt_1_false (a b : Matrix) :
  np_all_abs_diff_lt_1 a b = false <-> changed_by_at_least 1 a b.
Proof.
  unfold np_all_abs_diff_lt_1, changed_by_at_least, entry, Matrix in *.
  rewrite forallb_zip_false. split.
  - intros (i & ra & rb & Ha & Hb & Hrow). simpl in Hrow.
    apply forallb_zip_false in Hrow as (j & x & y & Hx & Hy & Hlt).
    exists i, j, x, y. rewrite Ha, Hb. simpl. repeat split; try done.
    simpl in Hlt. apply not_true_iff_false in Hlt. rewrite Qltb_lt in Hlt.
    by apply Qnot_lt_le.
  - intros (i & j & x & y & Hx & Hy & Hle).
    destruct (a !! i) as [ra|] eqn:Ha; [|done].
    destruct (b !! i) as [rb|] eqn:Hb; [|done]. simpl in Hx, Hy.
    exists i, ra, rb. repeat split; try done. simpl.
    apply forallb_zip_false. exists j, x, y. repeat split; try done. simpl.
    apply not_true_iff_false. rewrite Qltb_lt. by apply Qle_not_lt.
Qed.

(** Between multiples of one half, "more than 0.5" and "at least 1" are
    the same. *)
Lemma half_integral_gap (x y : Q) :
  half_integral x -> half_integral y ->
  (1 # 2 < Qabs (x - y) <-> 1 <= Qabs (x - y)).
Proof.
  intros [k Hk] [l Hl].
  assert (Hd : Qabs (x - y) == Z.abs (k - l) # 2).
  { rewrite Hk, Hl. unfold Qeq, Qminus, Qplus, Qopp, Qabs. simpl. lia. }
  rewrite Hd. unfold Qlt, Qle. simpl. lia.
Qed.

Lemma entry_half_integral (a : Matrix) (i j : nat) (x : Q) :
  half_integral_matrix a -> entry a i j = Some x -> half_integral x.
Proof.
  unfold half_integral_matrix, entry, Matrix in *. intros Ha Hx.
  destruct (a !! i) as [row|] eqn:Hrow; [|done]. simpl in Hx.
  rewrite Forall_lookup in Ha. specialize (Ha _ _ Hrow).
  rewrite Forall_lookup in Ha. by apply (Ha j).
Qed.

Lemma changed_half_integral (a b : Matrix) :
  half_integral_matrix a -> half_integral_matrix b ->
  (changed_by_more_than (1 # 2) a b <-> changed_by_at_least 1 a b).
Proof.
  intros Ha Hb. unfold changed_by_more_than, changed_by_at_least.
  split; intros (i & j & x & y & Hx & Hy & Hgap); exists i, j, x, y;
    (repeat split; [done|done|]);
    apply (half_integral_gap x y);
    eauto using entry_half_integral.
Qed.

(** The loop body on a molecule that is one fragment, sanitizes, and has
    no implicit hydrogens: the two strict checks, in their order, then
    the canonical string. *)
Lemma validity_body_strict (v : VState) (i : nat) (mol : Mol)
    (rdmol frag sanitized : RdMol) :
  rdkit_mol mol = Some rdmol ->
  GetMolFrags rdmol = Ok [frag] ->
  SanitizeMol frag = Ok sanitized ->
  total_implicit_hs sanitized = 0%nat ->
  validity_body true v (i, mol)
  = let v1 := append_components 1 v in
    if negb (np_all_abs_diff_lt_1 (GetAdjacencyMatrix rdmol)
                                  (GetAdjacencyMatrix sanitized))
    then Ok (count "wrong_bo" v1)
    else if (0 <? total_radical_electrons sanitized)%nat
    then Ok (count "radicals" v1)
    else match MolToSmiles sanitized with
         | Ok smiles => Ok (count "passed" (append_valid smiles i mol v1))
         | Raise AtomValenceException => Ok (count "wrong_atom_valence" v1)
         | Raise KekulizeException => Ok (count "kekulization" v1)
         | Raise e => if is_ValueError e then Ok (count "other" v1) else Raise e
         end.
Proof.
  intros Hmol Hfrags Hsan Himpl.
  unfold validity_body, try_block. rewrite Hmol, Hfrags. simpl.
  rewrite Hsan, Himpl. simpl.
  destruct (np_all_abs_diff_lt_1 _ _); simpl; [|done].
  destruct (0 <? total_radical_electrons sanitized)%nat; simpl; [done|].
  destruct (MolToSmiles sanitized) as [smiles|e]; [done|].
  by destruct e.
Qed.

Lemma excluded_as_count (k k' : string) (v v1 : VState) :
  error_message v1 = error_message v ->
  valid_smiles v1 = valid_smiles v ->
  valid_molecules v1 = valid_molecules v ->
  (excluded_as k v (count k' v1) <-> k = k').
Proof.
  intros He Hs Hm. unfold excluded_as. simpl. rewrite He, Hs, Hm. split.
  - intros (Hk & _). symmetry. by apply counter_incr_inj in Hk.
  - by intros ->.
Qed.

Lemma not_excluded_as_passed (k smiles : string) (i : nat) (mol : Mol) (v v1 : VState) :
  error_message v1 = error_message v ->
  k ≠ "passed" ->
  ~ excluded_as k v (count "passed" (append_valid smiles i mol v1)).
Proof.
  intros He Hk (Hc & _). simpl in Hc. rewrite He in Hc.
  apply counter_incr_inj in Hc. congruence.
Qed.

(** C3, as the code has it.  In strict mode, for a molecule that is a
    single fragment, sanitizes and has no implicit hydrogens left, the
    checks run in order: it is excluded as ["wrong_bo"] exactly when some
    bond order (a multiple of 0.5) changed by more than 0.5, and as
    ["radicals"] exactly when no bond order changed that much and the
    unpaired-electron count is positive.  In both cases the body returns
    without an exception. *)
Theorem strict_checks_in_order (v : VState) (i : nat) (mol : Mol)
    (rdmol frag sanitized : RdMol) :
  rdkit_mol mol = Some rdmol ->
  GetMolFrags rdmol = Ok [frag] ->
  SanitizeMol frag = Ok sanitized ->
  total_implicit_hs sanitized = 0%nat ->
  half_integral_matrix (GetAdjacencyMatrix rdmol) ->
  half_integral_matrix (GetAdjacencyMatrix sanitized) ->
  let changed :=
    changed_by_more_than (1 # 2) (GetAdjacencyMatrix rdmol)
                         (GetAdjacencyMatrix sanitized) in
  let radicals := (0 < total_radical_electrons sanitized)%nat in
  (changed ->
   validity_body true v (i, mol) = Ok (count "wrong_bo" (append_components 1 v))) /\
  (~ changed -> radicals ->
   validity_body true v (i, mol) = Ok (count "radicals" (append_components 1 v))) /\
  (forall v' : VState, validity_body true v (i, mol) = Ok v' ->
     (excluded_as "wrong_bo" v v' <-> changed) /\
     (excluded_as "radicals" v v' <-> ~ changed /\ radicals)).
Proof.
  intros Hmol Hfrags Hsan Himpl Hhalf Hhalf' changed radicals.
  rewrite (validity_body_strict v i mol rdmol frag sanitized) by done.
  cbv zeta.
  assert (Hch : changed <->
                np_all_abs_diff_lt_1 (GetAdjacencyMatrix rdmol)
                                     (GetAdjacencyMatrix sanitized) = false).
  { unfold changed. rewrite (changed_half_integral _ _ Hhalf Hhalf').
    symmetry. apply np_all_abs_diff_lt_1_false. }
  assert (Hrad : radicals <-> (0 <? total_radical_electrons sanitized)%nat = true)
    by (symmetry; apply Nat.ltb_lt).
  clearbody changed radicals.
  destruct (np_all_abs_diff_lt_1 _ _); simpl.
  - assert (Hnot : ~ changed) by (rewrite Hch; discriminate).
    destruct (0 <? total_radical_electrons sanitized)%nat.
    + assert (Hr : radicals) by (by apply Hrad).
      split; [done|]. split; [done|]. intros v' Hv. injection Hv as <-.
      rewrite !excluded_as_count by done. split; split; try done.
    + assert (Hr : ~ radicals) by (rewrite Hrad; discriminate).
      split; [done|]. split; [done|]. intros v' Hv.
      assert (Hno : forall k, k ≠ "passed" -> k ≠ "wrong_atom_valence" ->
                    k ≠ "kekulization" -> k ≠ "other" -> ~ excluded_as k v v').
      { intros k H1 H2 H3 H4.
        destruct (MolToSmiles sanitized) as [smiles|e].
        - injection Hv as <-. by apply not_excluded_as_passed.
        - destruct e; simpl in Hv; try discriminate; injection Hv as <-;
            rewrite excluded_as_count by done; congruence. }
      split; split; try (by intros [_ ?]); try done;
        intros Hex; exfalso; revert Hex; by apply Hno.
  - assert (Hyes : changed) by (by apply Hch).
    split; [done|]. split; [done|]. intros v' Hv. injection Hv as <-.
    rewrite !excluded_as_count by done. split; split; try done.
    by intros [? _].
Qed.

(** *** The reported validity *)

Lemma try_block_valid_smiles (strict : bool) (v v' : VState) (i : nat) (mol : Mol)
    (rdmol : RdMol) (adj : Matrix) (r : option Exn) :
  try_block strict v i mol rdmol adj = (v', r) ->
  (length (valid_smiles v') <= S (length (valid_smiles v)))%nat.
Proof.
  unfold try_block. intros Htry.
  repeat (match type of Htry with
          | context [match ?x with _ => _ end] => destruct x eqn:?
          end; simpl in Htry);
    injection Htry as <- <-; simpl; rewrite ?length_app; simpl; lia.
Qed.

Lemma validity_body_valid_smiles (strict : bool) (v v' : VState) (im : nat * Mol) :
  validity_body strict v im = Ok v' ->
  (length (valid_smiles v') <= S (length (valid_smiles v)))%nat.
Proof.
  destruct im as [i mol]. unfold validity_body.
  destruct (rdkit_mol mol) as [rdmol|]; [|intros [= <-]; lia].
  destruct (try_block _ _ _ _ _ _) as [w r] eqn:Htry.
  apply try_block_valid_smiles in Htry.
  destruct r as [e|]; [|by intros [= <-]].
  destruct e; simpl; intros [= <-]; simpl; lia.
Qed.

(** At most one canonical string is kept per molecule. *)
Lemma validity_loop_valid_smiles (strict : bool) (ims : list (nat * Mol))
    (v v' : VState) :
  for_each (validity_body strict) v ims = Ok v' ->
  (length (valid_smiles v') <= length (valid_smiles v) + length ims)%nat.
Proof.
  revert v. induction ims as [|im ims IH]; intros v.
  - simpl. intros [= <-]. lia.
  - rewrite for_each_cons, length_cons.
    destruct (validity_body strict v im) as [w|e] eqn:Hbody; [|discriminate].
    intros Hloop. apply IH in Hloop.
    apply validity_body_valid_smiles in Hbody. lia.
Qed.

Lemma nat_to_Q_nonneg (n : nat) : 0 <= nat_to_Q n.
Proof. unfold nat_to_Q, Qle. simpl. lia. Qed.

Lemma nat_to_Q_pos (n : nat) : n ≠ 0%nat -> 0 < nat_to_Q n.
Proof. unfold nat_to_Q, Qlt. simpl. lia. Qed.

Lemma nat_to_Q_le (n m : nat) : (n <= m)%nat -> nat_to_Q n <= nat_to_Q m.
Proof. unfold nat_to_Q, Qle. simpl. lia. Qed.

Lemma py_truediv_ok (a b : nat) :
  b ≠ 0%nat -> py_truediv a b = Ok (nat_to_Q a / nat_to_Q b).
Proof.
  intros Hb. unfold py_truediv. by destruct (Nat.eqb_spec b 0).
Qed.

Lemma py_float_div_ok (x : Q) (n : nat) :
  n ≠ 0%nat -> py_float_div x n = Ok (x / nat_to_Q n).
Proof.
  intros Hn. unfold py_float_div. by destruct (Nat.eqb_spec n 0).
Qed.

(** [compute_validity] on a non-empty batch whose loop raises nothing:
    it returns, and the validity accumulator has taken the batch in with
    weight [len(generated)]. *)
Lemma compute_validity_run (generated : list Mol) (local_rank : Z) (strict : bool)
    (s : State) (v : VState) :
  generated ≠ [] ->
  for_each (validity_body strict) vstate_init (enumerate generated) = Ok v ->
  exists (smiles : list string) (mols : list Mol) (cc : Q) (s1 : State),
    compute_validity generated local_rank strict s
    = (Ok (smiles, mols, cc, error_message v), s1) /\
    validity_metric (metrics s1)
    = mean_update (nat_to_Q (length (valid_smiles v)) / nat_to_Q (length generated))
                  (nat_to_Q (length generated)) (validity_metric (metrics s)) /\
    train_smiles s1 = train_smiles s.
Proof.
  intros Hne Hloop.
  assert (Hlen : length generated ≠ 0%nat) by (by destruct generated).
  unfold compute_validity, mbind, M_bind, bind, lift, when, print, modify_metrics,
    modify, ret.
  rewrite Hloop, py_truediv_ok, py_float_div_ok by done.
  destruct (canonicalize_list true (valid_smiles v)) as [smiles ids].
  destruct (local_rank =? 0)%Z; do 4 eexists; (split; [reflexivity|]); by split.
Qed.

Lemma list_set_nonempty (l : list string) : l ≠ [] -> length (list_set l) ≠ 0%nat.
Proof.
  intros Hl Hlen. unfold list_set in Hlen.
  destruct l as [|x l]; [done|].
  apply length_zero_iff_nil in Hlen.
  assert (Hx : x ∈ elements (list_to_set (x :: l) : gset string))
    by (apply elem_of_elements; set_solver).
  rewrite Hlen in Hx. by apply elem_of_nil in Hx.
Qed.

(** The uniqueness and novelty step of [evaluate] raises nothing. *)
Lemma evaluate_unique_ok (smiles : list string) (s : State) :
  smiles ≠ [] -> exists r s', evaluate_unique smiles s = (Ok r, s').
Proof.
  intros Hne.
  assert (Hlen : length smiles ≠ 0%nat) by (by destruct smiles).
  pose proof (list_set_nonempty smiles Hne) as Hunique.
  unfold evaluate_unique, mbind, M_bind, bind, lift, modify_metrics, modify,
    get_state, ret.
  rewrite py_truediv_ok by done. simpl.
  destruct (train_smiles s) as [train|]; simpl.
  - rewrite py_truediv_ok by done. simpl. eauto.
  - eauto.
Qed.

(** The validity that [evaluate] returns is the accumulator right after
    [compute_validity]. *)
Lemma evaluate_validity (generated : list Mol) (local_rank : Z) (s : State)
    (v : VState) :
  generated ≠ [] ->
  for_each (validity_body true) vstate_init (enumerate generated) = Ok v ->
  exists (valid_mols : list Mol) (smiles : list string) (nov uniq : PyNum) (cc : Q)
         (s' : State),
    evaluate generated local_rank s
    = (Ok (valid_mols, smiles,
           mean_compute
             (mean_update
                (nat_to_Q (length (valid_smiles v)) / nat_to_Q (length generated))
                (nat_to_Q (length generated)) (validity_metric (metrics s))),
           nov, uniq, cc), s').
Proof.
  intros Hne Hloop.
  destruct (compute_validity_run generated local_rank true s v Hne Hloop)
    as (smiles & mols & cc & s1 & Hrun & Hacc & _).
  unfold evaluate. erewrite bind_ok by exact Hrun. cbv beta iota.
  erewrite bind_ok by reflexivity. rewrite Hacc.
  destruct (0 <? length smiles)%nat eqn:Hsmiles.
  - destruct (evaluate_unique_ok smiles s1) as ([uniq nov] & s2 & Hunique).
    { apply Nat.ltb_lt in Hsmiles. destruct smiles; [simpl in Hsmiles; lia|done]. }
    erewrite bind_ok by exact Hunique. cbv beta iota.
    erewrite bind_ok by reflexivity.
    destruct (local_rank =? 0)%Z; do 6 eexists; reflexivity.
  - erewrite bind_ok by reflexivity. cbv beta iota.
    erewrite bind_ok by reflexivity.
    destruct (local_rank =? 0)%Z; do 6 eexists; reflexivity.
Qed.

(** C4, as the code has it.  For a non-empty batch whose loop raises
    nothing, [evaluate] returns as validity the running weighted mean of
    its accumulator: (sum so far + valid_count) / (weight so far +
    total_count).  It lies in [0,1] when the accumulator did, and it is
    valid_count / total_count of this batch when the accumulator was
    empty at entry. *)
Theorem validity_is_running_mean (generated : list Mol) (local_rank : Z)
    (s : State) (v : VState) :
  generated ≠ [] ->
  for_each (validity_body true) vstate_init (enumerate generated) = Ok v ->
  0 <= mean_value (validity_metric (metrics s)) ->
  mean_value (validity_metric (metrics s)) <= weight (validity_metric (metrics s)) ->
  let valid_count := nat_to_Q (length (valid_smiles v)) in
  let total_count := nat_to_Q (length generated) in
  exists (valid_mols : list Mol) (smiles : list string) (validity : Q)
         (nov uniq : PyNum) (cc : Q) (s' : State),
    evaluate generated local_rank s
    = (Ok (valid_mols, smiles, Fin validity, nov, uniq, cc), s') /\
    validity == (mean_value (validity_metric (metrics s)) + valid_count)
                / (weight (validity_metric (metrics s)) + total_count) /\
    0 <= validity <= 1 /\
    (mean_value (validity_metric (metrics s)) == 0 ->
     weight (validity_metric (metrics s)) == 0 ->
     validity == valid_count / total_count).
Proof.
  intros Hne Hloop Hsum Hweight valid_count total_count.
  destruct (evaluate_validity generated local_rank s v Hne Hloop)
    as (valid_mols & smiles & nov & uniq & cc & s' & Hev).
  set (acc := validity_metric (metrics s)) in *.
  assert (Htotal : 0 < total_count).
  { apply nat_to_Q_pos. by destruct generated. }
  assert (Hvalid : 0 <= valid_count) by apply nat_to_Q_nonneg.
  assert (Hle : valid_count <= total_count).
  { apply nat_to_Q_le. apply validity_loop_valid_smiles in Hloop.
    rewrite enumerate_length in Hloop. simpl in Hloop. lia. }
  assert (Hden : 0 < weight acc + total_count).
  { apply Qlt_le_trans with (0 + total_count); [by rewrite Qplus_0_l|].
    apply Qplus_le_l. by apply Qle_trans with (mean_value acc). }
  assert (Hq : (mean_value acc + valid_count / total_count * total_count)
               / (weight acc + total_count)
               == (mean_value acc + valid_count) / (weight acc + total_count)).
  { field. split; intros Hz; [rewrite Hz in Hden | rewrite Hz in Htotal];
      by apply Qlt_irrefl in Hden || by apply Qlt_irrefl in Htotal. }
  unfold mean_compute, mean_update in Hev. simpl in Hev.
  fold valid_count total_count in Hev.
  destruct (Qeq_bool (weight acc + total_count) 0) eqn:Hzero.
  { apply Qeq_bool_eq in Hzero. rewrite Hzero in Hden. by apply Qlt_irrefl in Hden. }
  do 7 eexists. split; [exact Hev|]. split; [exact Hq|]. split; [split|].
  - rewrite Hq. apply Qle_shift_div_l; [done|]. rewrite Qmult_0_l.
    rewrite <- (Qplus_0_l 0). by apply Qplus_le_compat.
  - rewrite Hq. apply Qle_shift_div_r; [done|]. rewrite Qmult_1_l.
    by apply Qplus_le_compat.
  - intros Hs0 Hw0. rewrite Hq, Hs0, Hw0, !Qplus_0_l. reflexivity.
Qed.

(** *** The cutoff of the angle distance *)

(** C5. When the molecules carry bond types, [compute_statistics] returns,
    and it calls [angle_distance] exactly when the sparsity level is at
    least 0.7 (0.7 itself included).  Below the cutoff the call is
    skipped, the value fed to the angle accumulator is the sentinel [0],
    and on an empty accumulator the reported [AnglesW1] is zero. *)
Theorem angle_distance_cutoff (first : Mol) (rest : list Mol) (b : TorchTensor)
    (local_rank : Z) (s : State) :
  bond_types first = Some b ->
  let molecules := first :: rest in
  let sparsity_level := (bond_types_distance (test s) molecules).2 in
  exists (log : StatisticsLog) (s' : State),
    compute_statistics molecules local_rank s = (Ok log, s') /\
    (angle_distance_calls s' = S (angle_distance_calls s)
     <-> sparsity_threshold <= sparsity_level) /\
    (angle_distance_calls s' = angle_distance_calls s
     <-> sparsity_level < sparsity_threshold) /\
    (sparsity_threshold <= sparsity_level ->
     angles_w1 (metrics s')
     = mean_update (angle_distance (test s) molecules).1 1 (angles_w1 (metrics s))) /\
    (sparsity_level < sparsity_threshold ->
     angles_w1 (metrics s') = mean_update 0 1 (angles_w1 (metrics s)) /\
     AnglesW1 log = mean_compute (mean_update 0 1 (angles_w1 (metrics s))) /\
     (angles_w1 (metrics s) = mean_init ->
      exists q : Q, AnglesW1 log = Fin q /\ q == 0)).
Proof.
  intros Hbonds molecules sparsity_level.
  unfold compute_statistics, bond_statistics, angle_step, forward, mbind, M_bind,
    bind, lift, when, print, modify_metrics, modify, get_state, ret.
  fold molecules. simpl.
  destruct (atom_types_distance (test s) molecules) as [atom_tv ?].
  subst sparsity_level.
  destruct (charges first);
    [destruct (charge_distance (test s) molecules) as [charge ?]|];
    rewrite Hbonds; simpl;
    destruct (bond_types_distance (test s) molecules) as [[edge_tv ?] sparsity];
    simpl;
    destruct (valency_distance (test s) molecules) as [valency ?];
    destruct (bond_length_distance (test s) molecules) as [lengths ?];
    destruct (Qltb sparsity sparsity_threshold) eqn:Hcut;
    try (apply Qltb_lt in Hcut);
    try (apply not_true_iff_false in Hcut; rewrite Qltb_lt in Hcut;
         apply Qnot_lt_le in Hcut);
    destruct (local_rank =? 0)%Z; simpl;
    destruct (angle_distance (test s) molecules) as [angles ?] eqn:Hangles;
    destruct (dihedral_distance (test s) molecules) as [dihedrals ?];
    simpl; do 2 eexists; (split; [reflexivity|]); simpl;
    repeat split; try done; try lia;
    try (intros; exfalso; by eapply Qlt_not_le);
    try (intros ->; eexists; split; [reflexivity|reflexivity]).
Qed.

(** *** Similarity with the training set *)

(** The arithmetic mean of a list of numbers. *)
Definition arithmetic_mean (l : list Q) : Q := Qsum l / nat_to_Q (length l).


Lemma np_mean_nonempty (l : list Q) : l ≠ [] -> np_mean l = Fin (arithmetic_mean l).
Proof. by destruct l. Qed.










(** *** The KL score *)

(** The ten divergences of [get_kl_divergence], in the order in which
    they enter [kldivs]: four continuous descriptors, five discrete
    descriptors, and the internal similarity. *)
Definition kl_values (generated_smiles subset : list string) : list R :=
  let unique_molecules := list_set (canonicalize_list false generated_smiles).1 in
  let d_sampled := calculate_pc_descriptors unique_molecules pc_descriptor_subset in
  let d_chembl := calculate_pc_descriptors subset pc_descriptor_subset in
  ((fun i => continuous_kldiv (column d_chembl i) (column d_sampled i)) <$> seq 0 4)
  ++ ((fun i => discrete_kldiv (column d_chembl i) (column d_sampled i)) <$> seq 4 5)
  ++ [continuous_kldiv (internal_similarity_max subset)
                       (internal_similarity_max unique_molecules)].

(** The sum of [exp(-v)] over a list, from zero, left to right. *)
Definition sum_exp_neg (vs : list R) : R :=
  py_sum ((fun v => exp (- v)%R) <$> vs).

Lemma py_sum_from (a : R) (l : list R) : foldl Rplus a l = (a + py_sum l)%R.
Proof.
  unfold py_sum. revert a. induction l as [|x l IH]; intros a; simpl.
  - lra.
  - rewrite IH, (IH (0 + x)%R). lra.
Qed.

Lemma exp_neg_bounds (v : R) : (0 <= v)%R -> (0 < exp (- v) <= 1)%R.
Proof.
  intros Hv. split; [apply exp_pos|].
  rewrite <- exp_0. destruct Hv as [Hv | <-].
  - left. apply exp_increasing. lra.
  - rewrite Ropp_0. lra.
Qed.

(** Each term of the sum lies in (0,1], so a non-empty sum lies in
    (0, length]. *)
Lemma sum_exp_neg_bounds (vs : list R) :
  Forall (fun v => (0 <= v)%R) vs ->
  vs ≠ [] ->
  (0 < sum_exp_neg vs <= INR (length vs))%R.
Proof.
  unfold sum_exp_neg, py_sum.
  induction 1 as [|v vs Hv Hvs IH]; [done|]. intros _.
  rewrite fmap_cons. simpl foldl. rewrite py_sum_from.
  pose proof (exp_neg_bounds v Hv) as [Hpos Hle].
  rewrite length_cons, S_INR.
  destruct vs as [|w ws].
  - simpl. unfold py_sum. simpl. lra.
  - destruct IH as [IH1 IH2]; [done|]. unfold py_sum. lra.
Qed.

(** C9. [get_kl_divergence] collects exactly ten divergences (four
    continuous, five discrete, one for the internal similarity), maps each
    value [v] to [exp(-v)] and returns the arithmetic mean of the ten; when
    all ten are non-negative the score lies in (0,1]. *)
Theorem kl_score_is_mean_of_ten (generated_smiles subset : list string)
    (s : State) :
  train_subset s = Some subset ->
  let vs := kl_values generated_smiles subset in
  length vs = 10%nat /\
  get_kl_divergence generated_smiles s = (Ok (sum_exp_neg vs / 10)%R, s) /\
  (Forall (fun v => (0 <= v)%R) vs ->
   (0 < sum_exp_neg vs / 10 <= 1)%R).
Proof.
  intros Hsubset vs. split; [reflexivity|]. split.
  - unfold get_kl_divergence, mbind, M_bind, bind, get_state, lift, ret.
    rewrite Hsubset. do 2 f_equal.
    unfold kldiv_loop, dict_set, sum_exp_neg, vs, kl_values. simpl.
    f_equal. lra.
  - intros Hvs. apply sum_exp_neg_bounds in Hvs; [|done].
    change (length vs) with 10%nat in Hvs.
    replace (INR 10) with 10%R in Hvs by (simpl; lra).
    lra.
Qed.

(** *** The reset at the end of [__call__] *)

(** The branch of [__call__] with valid molecules leaves every
    accumulator reset. *)
Lemma call_statistics_resets (valid_molecules : list Mol)
    (all_generated_smiles : list string) (connected_components : Q)
    (local_rank : Z) (s s' : State) (d : StatisticsDict) :
  call_statistics valid_molecules all_generated_smiles connected_components
                  local_rank s = (Ok d, s') ->
  metrics s' = fresh_metrics.
Proof.
  unfold call_statistics, mbind, M_bind, bind, reset, modify_metrics, modify, ret.
  intros Hrun.
  repeat match type of Hrun with
         | context [match ?x with _ => _ end] => destruct x eqn:?
         end;
    try discriminate; by injection Hrun as _ <-.
Qed.

(** [__init__(dataset_info, smiles_train, test)] on a list of training
    strings. *)
Definition __init__ (smiles_train : list string) (is_test : bool) : State :=
  let train := (canonicalize_list true smiles_train).1 in
  {| metrics := fresh_metrics; train_smiles := Some train;
     train_fps := get_fingerprints_from_smileslist train; test := is_test;
     number_samples := 0; train_subset := None; stdout := [];
     angle_distance_calls := 0 |}.

(** The same instance after [self.train_smiles = None]. *)
Definition without_train_smiles (s : State) : State :=
  {| metrics := metrics s; train_smiles := None; train_fps := train_fps s;
     test := test s; number_samples := number_samples s;
     train_subset := train_subset s; stdout := stdout s;
     angle_distance_calls := angle_distance_calls s |}.

(** The validity and the novelty in what [__call__] and [evaluate]
    return. *)
Definition call_validity
    (r : Result (StabilityDict * ValidityDict * option StatisticsDict
                 * option (list string) * option (list Mol))) : option fval :=
  match r with
  | Ok (_, validity_dict, _, _, _) => Some (dict_validity validity_dict)
  | Raise _ => None
  end.

Definition evaluate_validity_of
    (r : Result (list Mol * list string * fval * PyNum * PyNum * Q)) : option fval :=
  match r with
  | Ok (_, _, validity, _, _, _) => Some validity
  | Raise _ => None
  end.

Definition evaluate_novelty_of
    (r : Result (list Mol * list string * fval * PyNum * PyNum * Q)) : option PyNum :=
  match r with
  | Ok (_, _, _, novelty_value, _, _) => Some novelty_value
  | Raise _ => None
  end.

Definition is_novelty_notice (l : Line) : bool :=
  match l with
  | PrintNoveltySkipped => true
  | _ => false
  end.

(** C4 as the specification states it: the validity that one call of
    [evaluate] reports is valid_count / total_count of its batch, whatever
    the instance has evaluated before. *)
Definition reports_batch_validity (generated : list Mol) (local_rank : Z)
    (s : State) : Prop :=
  forall (v : VState) (validity : fval),
    for_each (validity_body true) vstate_init (enumerate generated) = Ok v ->
    evaluate_validity_of (evaluate generated local_rank s).1 = Some validity ->
    exists q : Q,
      validity = Fin q /\
      q == nat_to_Q (length (valid_smiles v)) / nat_to_Q (length generated).

(** C3 as the specification states it: after fragment decomposition and
    sanitization, each of the two strict categories is decided by its own
    test alone. *)
Definition strict_checks_as_stated (v : VState) (i : nat) (mol : Mol)
    (rdmol frag sanitized : RdMol) : Prop :=
  rdkit_mol mol = Some rdmol ->
  GetMolFrags rdmol = Ok [frag] ->
  SanitizeMol frag = Ok sanitized ->
  forall v' : VState, validity_body true v (i, mol) = Ok v' ->
    (excluded_as "wrong_bo" v v'
     <-> changed_by_more_than (1 # 2) (GetAdjacencyMatrix rdmol)
                              (GetAdjacencyMatrix sanitized)) /\
    (excluded_as "radicals" v v' <-> (0 < total_radical_electrons sanitized)%nat).

(** ** Further properties of the methods *)

(** *** [compute_uniqueness] and [compute_novelty] *)

Lemma nat_to_Q_inj (n m : nat) : nat_to_Q n == nat_to_Q m <-> n = m.
Proof. unfold nat_to_Q, Qeq. simpl. lia. Qed.

Lemma Qdiv_eq_1 (a b : Q) : 0 < b -> (a / b == 1 <-> a == b).
Proof.
  intros Hb. assert (Hne : ~ b == 0) by (intros Hz; rewrite Hz in Hb; by apply Qlt_irrefl in Hb).
  split; intros Heq.
  - rewrite <- (Qmult_div_r a b Hne), Heq. apply Qmult_1_r.
  - rewrite Heq. by apply Qmult_inv_r.
Qed.

Lemma Qdiv_eq_0 (a b : Q) : 0 < b -> (a / b == 0 <-> a == 0).
Proof.
  intros Hb. assert (Hne : ~ b == 0) by (intros Hz; rewrite Hz in Hb; by apply Qlt_irrefl in Hb).
  split; intros Heq.
  - rewrite <- (Qmult_div_r a b Hne), Heq. apply Qmult_0_r.
  - rewrite Heq. unfold Qdiv. apply Qmult_0_l.
Qed.

(** A ratio of two counts, the smaller over the larger, lies in [0,1]. *)
Lemma count_ratio_bounds (a b : nat) :
  (a <= b)%nat -> b ≠ 0%nat -> 0 <= nat_to_Q a / nat_to_Q b <= 1.
Proof.
  intros Hab Hb. pose proof (nat_to_Q_pos b Hb) as Hpos. split.
  - apply Qle_shift_div_l; [done|]. rewrite Qmult_0_l. apply nat_to_Q_nonneg.
  - apply Qle_shift_div_r; [done|]. rewrite Qmult_1_l. by apply nat_to_Q_le.
Qed.

Lemma list_set_spec (l : list string) :
  NoDup (list_set l) /\ forall x : string, x ∈ list_set l <-> x ∈ l.
Proof.
  unfold list_set. split; [apply NoDup_elements|].
  intros x. rewrite elem_of_elements. apply elem_of_list_to_set.
Qed.

Lemma list_set_length (l : list string) :
  (length (list_set l) <= length l)%nat /\
  (length (list_set l) = length l <-> NoDup l).
Proof.
  destruct (list_set_spec l) as [Hnodup Hin].
  assert (Hsub : list_set l ⊆+ l).
  { apply NoDup_submseteq; [done|]. intros x. by rewrite Hin. }
  split; [by apply submseteq_length|]. split.
  - intros Hlen. apply submseteq_length_Permutation in Hsub; [|lia].
    by rewrite <- Hsub.
  - intros Hl. unfold list_set.
    pose proof (size_list_to_set (C:=gset string) l Hl) as Hsize.
    unfold size, set_size in Hsize. simpl in Hsize. exact Hsize.
Qed.

(** [compute_uniqueness] raises [ZeroDivisionError] on the empty list.  On
    a non-empty list it returns the distinct strings (each input string
    once, nothing else) and their share of the input, which lies in (0,1]
    and is 1 exactly when the input has no duplicates. *)
Theorem compute_uniqueness_spec :
  compute_uniqueness [] = Raise ZeroDivisionError /\
  forall (x : string) (rest : list string),
  exists (unique : list string) (ratio : Q),
    compute_uniqueness (x :: rest) = Ok (unique, ratio) /\
    NoDup unique /\
    (forall y : string, y ∈ unique <-> y ∈ x :: rest) /\
    ratio == nat_to_Q (length unique) / nat_to_Q (length (x :: rest)) /\
    0 < ratio /\ ratio <= 1 /\
    (ratio == 1 <-> NoDup (x :: rest)).
Proof.
  split; [reflexivity|]. intros x rest.
  set (valid := x :: rest).
  assert (Hne : valid ≠ []) by done.
  assert (Hlen : length valid ≠ 0%nat) by done.
  pose proof (list_set_nonempty valid Hne) as Hunique.
  destruct (list_set_spec valid) as [Hnodup Hin].
  destruct (list_set_length valid) as [Hle Heq].
  exists (list_set valid), (nat_to_Q (length (list_set valid)) / nat_to_Q (length valid)).
  unfold compute_uniqueness. rewrite py_truediv_ok by done.
  split; [reflexivity|]. split; [exact Hnodup|]. split; [exact Hin|].
  split; [reflexivity|]. split; [|split].
  - apply Qlt_shift_div_l; [by apply nat_to_Q_pos|].
    rewrite Qmult_0_l. by apply nat_to_Q_pos.
  - by apply count_ratio_bounds.
  - rewrite (Qdiv_eq_1 _ _ (nat_to_Q_pos _ Hlen)), nat_to_Q_inj. exact Heq.
Qed.

Lemma filter_length_zero {X : Type} (P : X -> Prop) `{!forall x, Decision (P x)}
    (l : list X) :
  length (filter P l) = 0%nat <-> Forall (fun x => ~ P x) l.
Proof.
  induction l as [|x l IH]; [by split|].
  rewrite filter_cons, Forall_cons. destruct (decide (P x)); simpl.
  - split; [lia|]. by intros [? _].
  - rewrite IH. by split; [|intros [_ ?]].
Qed.

Lemma filter_length_all {X : Type} (P : X -> Prop) `{!forall x, Decision (P x)}
    (l : list X) :
  length (filter P l) = length l <-> Forall P l.
Proof.
  induction l as [|x l IH]; [by split|].
  rewrite filter_cons, Forall_cons. pose proof (length_filter P l) as Hle.
  destruct (decide (P x)); simpl.
  - rewrite <- IH. split; [by intros [= ?] | intros [_ ->]; done].
  - split; [lia|]. by intros [? _].
Qed.

(** [compute_novelty].  Without training strings ([train_smiles] is
    [None]) it prints the notice and returns the pair of ones, whatever
    the input.  With training strings and a non-empty input it prints
    nothing, changes nothing, and returns the input strings that are not
    training strings, in their order, with their share of the input; the
    share lies in [0,1], is 0 exactly when every input string is a
    training string and 1 exactly when none is.  On an empty input it
    raises [ZeroDivisionError]. *)
Theorem compute_novelty_spec (s : State) :
  (train_smiles s = None ->
   forall unique : list string,
     compute_novelty unique s
     = (Ok (NoveltySkipped 1 1), add_line PrintNoveltySkipped s)) /\
  (forall train : list string, train_smiles s = Some train ->
   compute_novelty [] s = (Raise ZeroDivisionError, s) /\
   forall (x : string) (rest : list string),
   exists ratio : Q,
     compute_novelty (x :: rest) s
     = (Ok (NoveltyOf (filter (fun y => y ∉ train) (x :: rest)) ratio), s) /\
     0 <= ratio <= 1 /\
     (ratio == 0 <-> Forall (fun y => y ∈ train) (x :: rest)) /\
     (ratio == 1 <-> Forall (fun y => y ∉ train) (x :: rest))).
Proof.
  split.
  - intros Hnone unique.
    unfold compute_novelty, mbind, M_bind, bind, get_state. by rewrite Hnone.
  - intros train Hsome. split.
    + unfold compute_novelty, mbind, M_bind, bind, get_state. by rewrite Hsome.
    + intros x rest. set (unique := x :: rest).
      assert (Hlen : length unique ≠ 0%nat) by done.
      set (novel := filter (fun y => y ∉ train) unique).
      exists (nat_to_Q (length novel) / nat_to_Q (length unique)).
      split; [|split; [|split]].
      * unfold compute_novelty, mbind, M_bind, bind, get_state, lift, ret.
        rewrite Hsome. fold unique novel. by rewrite py_truediv_ok.
      * apply count_ratio_bounds; [apply length_filter | done].
      * rewrite (Qdiv_eq_0 _ _ (nat_to_Q_pos _ Hlen)).
        change 0 with (nat_to_Q 0). rewrite nat_to_Q_inj.
        unfold novel. rewrite filter_length_zero.
        apply Forall_proper; [|done]. intros y.
        split; [apply dec_stable | by intros ? ?].
      * rewrite (Qdiv_eq_1 _ _ (nat_to_Q_pos _ Hlen)), nat_to_Q_inj.
        unfold novel. apply filter_length_all.
Qed.

(** *** [compute_sanitize_validity] *)

(** [SanitizeMol] succeeds on the RDKit molecule of [mol]. *)
Definition sanitizes (mol : Mol) : bool :=
  match rdkit_mol mol with
  | Some rdmol => match SanitizeMol rdmol with
                  | Ok _ => true
                  | Raise _ => false
                  end
  | None => false
  end.

(** [mol] has an RDKit molecule, and sanitizing it raises nothing but
    what [except ValueError] catches. *)
Definition sanitize_caught (mol : Mol) : Prop :=
  exists rdmol : RdMol,
    rdkit_mol mol = Some rdmol /\
    forall e : Exn, SanitizeMol rdmol = Raise e -> is_ValueError e = true.

Lemma sanitize_loop (generated : list Mol) (valid : list RdMol) :
  Forall sanitize_caught generated ->
  exists valid' : list RdMol,
    for_each sanitize_body valid generated = Ok valid' /\
    length valid'
    = (length valid + length (filter (fun mol => sanitizes mol = true) generated))%nat.
Proof.
  intros Hall. revert valid.
  induction Hall as [|mol generated (rdmol & Hmol & Hcaught) _ IH]; intros valid.
  - exists valid. split; [done|]. simpl. lia.
  - rewrite for_each_cons. unfold sanitize_body at 1. rewrite Hmol.
    destruct (SanitizeMol rdmol) as [rdmol'|e] eqn:Hsan.
    + destruct (IH (valid ++ [rdmol'])) as (valid' & Hrun & Hlen).
      exists valid'. split; [done|].
      rewrite filter_cons_True by (unfold sanitizes; by rewrite Hmol, Hsan).
      rewrite Hlen, length_app, !length_cons. simpl. lia.
    + rewrite (Hcaught e eq_refl).
      destruct (IH valid) as (valid' & Hrun & Hlen).
      exists valid'. split; [done|].
      rewrite filter_cons_False; [done|].
      unfold sanitizes. by rewrite Hmol, Hsan.
Qed.

(** [compute_sanitize_validity] is guarded against the empty list: it
    returns the sentinel [-1.0].  On a non-empty list whose molecules all
    have an RDKit molecule and fail, if at all, with an exception that
    [except ValueError] catches, it returns the share of molecules that
    sanitize, a number in [0,1]. *)
Theorem compute_sanitize_validity_spec :
  compute_sanitize_validity [] = Ok (-1) /\
  forall (mol : Mol) (rest : list Mol),
    Forall sanitize_caught (mol :: rest) ->
    exists q : Q,
      compute_sanitize_validity (mol :: rest) = Ok q /\
      q == nat_to_Q (length (filter (fun m => sanitizes m = true) (mol :: rest)))
           / nat_to_Q (length (mol :: rest)) /\
      0 <= q <= 1.
Proof.
  split; [reflexivity|]. intros mol rest Hall.
  destruct (sanitize_loop (mol :: rest) [] Hall) as (valid & Hrun & Hlen).
  simpl in Hlen.
  exists (nat_to_Q (length valid) / nat_to_Q (length (mol :: rest))).
  split; [|split].
  - unfold compute_sanitize_validity.
    change (length (mol :: rest) <? 1)%nat with false. cbv iota.
    rewrite Hrun. by apply py_truediv_ok.
  - by rewrite Hlen.
  - apply count_ratio_bounds; [|done]. rewrite Hlen. apply length_filter.
Qed.

(** *** More on [compute_validity] *)

(** [mol] has an RDKit molecule. *)
Definition has_rdkit_mol (mol : Mol) : Prop := is_Some (rdkit_mol mol).

#[local] Instance has_rdkit_mol_dec (mol : Mol) : Decision (has_rdkit_mol mol).
Proof. unfold has_rdkit_mol. apply _. Defined.

Lemma validity_body_skips_none (strict : bool) (v : VState) (i : nat) (mol : Mol) :
  ~ has_rdkit_mol mol -> validity_body strict v (i, mol) = Ok v.
Proof.
  unfold has_rdkit_mol, validity_body. destruct (rdkit_mol mol); [|done].
  intros []. by eexists.
Qed.

(** The loop counts one category per molecule that has an RDKit molecule,
    and nothing for the others. *)
Lemma validity_loop_counts (strict : bool) (ims : list (nat * Mol)) (v v' : VState) :
  for_each (validity_body strict) v ims = Ok v' ->
  counter_total (error_message v')
  = (counter_total (error_message v)
     + length (filter has_rdkit_mol ims.*2))%nat.
Proof.
  revert v. induction ims as [|[i mol] ims IH]; intros v.
  - simpl. intros [= <-]. simpl. lia.
  - rewrite for_each_cons, fmap_cons, filter_cons.
    destruct (validity_body strict v (i, mol)) as [w|e] eqn:Hbody; [|discriminate].
    intros Hloop. apply IH in Hloop. rewrite Hloop. simpl.
    destruct (decide (has_rdkit_mol mol)) as [Hmol | Hmol].
    + apply validity_body_one_category in Hbody as [k ->].
      * rewrite counter_total_incr. simpl. lia.
      * unfold has_rdkit_mol in Hmol. by destruct Hmol as [? ->].
    + rewrite validity_body_skips_none in Hbody by done. injection Hbody as <-. lia.
Qed.

Lemma enumerate_snd {X} (l : list X) : (enumerate l).*2 = l.
Proof. unfold enumerate. apply snd_zip. rewrite length_seq. lia. Qed.

(** Molecules without an RDKit molecule are skipped without a trace: the
    error counts that [compute_validity] returns add up to the number of
    molecules that have one. *)
Theorem error_counts_ignore_missing_molecules (generated : list Mol)
    (local_rank : Z) (strict : bool) (s s' : State) (smiles : list string)
    (mols : list Mol) (cc : Q) (err : gmap string nat) :
  compute_validity generated local_rank strict s = (Ok (smiles, mols, cc, err), s') ->
  counter_total err = length (filter has_rdkit_mol generated).
Proof.
  intros Hrun.
  apply compute_validity_ok in Hrun as (v & Hloop & ->).
  apply validity_loop_counts in Hloop. by rewrite Hloop, enumerate_snd.
Qed.

Lemma try_block_not_strict (v v' : VState) (i : nat) (mol : Mol) (rdmol : RdMol)
    (adj : Matrix) (r : option Exn) (k : string) :
  k = "wrong_bo" \/ k = "radicals" ->
  try_block false v i mol rdmol adj = (v', r) ->
  counter_get k (error_message v') = counter_get k (error_message v).
Proof.
  unfold try_block. intros Hk Htry.
  repeat (match type of Htry with
          | context [match ?x with _ => _ end] => destruct x eqn:?
          end; simpl in Htry);
    injection Htry as <- <-; simpl; try done;
    rewrite counter_get_incr; destruct Hk as [-> | ->]; by case_decide.
Qed.

Lemma validity_body_not_strict (v v' : VState) (im : nat * Mol) (k : string) :
  k = "wrong_bo" \/ k = "radicals" ->
  validity_body false v im = Ok v' ->
  counter_get k (error_message v') = counter_get k (error_message v).
Proof.
  intros Hk. destruct im as [i mol]. unfold validity_body.
  destruct (rdkit_mol mol) as [rdmol|]; [|by intros [= <-]].
  destruct (try_block _ _ _ _ _ _) as [w r] eqn:Htry.
  apply (try_block_not_strict _ _ _ _ _ _ _ k Hk) in Htry.
  destruct r as [e|]; [|by intros [= <-]].
  destruct e; simpl; intros [= <-]; simpl; try done;
    rewrite counter_get_incr, Htry; destruct Hk as [-> | ->]; by case_decide.
Qed.

Lemma validity_loop_not_strict (ims : list (nat * Mol)) (v v' : VState) (k : string) :
  k = "wrong_bo" \/ k = "radicals" ->
  for_each (validity_body false) v ims = Ok v' ->
  counter_get k (error_message v') = counter_get k (error_message v).
Proof.
  intros Hk. revert v. induction ims as [|im ims IH]; intros v.
  - simpl. by intros [= <-].
  - rewrite for_each_cons.
    destruct (validity_body false v im) as [w|e] eqn:Hbody; [|discriminate].
    intros Hloop. apply IH in Hloop. rewrite Hloop.
    by apply validity_body_not_strict with im.
Qed.

(** With [strict=False] no molecule is ever excluded for a changed bond
    order or for unpaired electrons. *)
Theorem non_strict_never_counts_strict_categories (generated : list Mol)
    (local_rank : Z) (s s' : State) (smiles : list string) (mols : list Mol)
    (cc : Q) (err : gmap string nat) :
  compute_validity generated local_rank false s = (Ok (smiles, mols, cc, err), s') ->
  counter_get "wrong_bo" err = 0%nat /\ counter_get "radicals" err = 0%nat.
Proof.
  intros Hrun.
  apply compute_validity_ok in Hrun as (v & Hloop & ->).
  split.
  - by rewrite (validity_loop_not_strict _ _ _ "wrong_bo" (or_introl eq_refl) Hloop).
  - by rewrite (validity_loop_not_strict _ _ _ "radicals" (or_intror eq_refl) Hloop).
Qed.

Lemma counter_get_le_total (k : string) (c : gmap string nat) :
  (counter_get k c <= counter_total c)%nat.
Proof.
  destruct (c !! k) as [w|] eqn:Hk.
  - pose proof (counter_total_insert k w (delete k c)) as Hins.
    rewrite insert_delete_id in Hins by done.
    unfold counter_get in *. rewrite Hk. rewrite lookup_delete_eq in Hins.
    simpl in *. lia.
  - unfold counter_get. rewrite Hk. simpl. lia.
Qed.

(** What a returning call of [compute_validity] has done. *)
Lemma compute_validity_inv (generated : list Mol) (local_rank : Z) (strict : bool)
    (s s' : State) (smiles : list string) (mols : list Mol) (cc : Q)
    (err : gmap string nat) :
  compute_validity generated local_rank strict s = (Ok (smiles, mols, cc, err), s') ->
  exists v : VState,
    for_each (validity_body strict) vstate_init (enumerate generated) = Ok v /\
    err = error_message v /\
    length generated ≠ 0%nat /\
    cc = 100 - 100 * nat_to_Q (counter_get "disconnected" (error_message v))
               / nat_to_Q (length generated) /\
    smiles = (canonicalize_list true (valid_smiles v)).1 /\
    uniqueness (metrics s') = uniqueness (metrics s) /\
    novelty (metrics s') = novelty (metrics s) /\
    train_smiles s' = train_smiles s.
Proof.
  unfold compute_validity, mbind, M_bind, bind, lift, when, print, modify_metrics,
    modify, ret.
  destruct (for_each _ _ _) as [v|e]; [|done].
  intros Hrun. exists v. split; [done|].
  destruct (Nat.eq_dec (length generated) 0%nat) as [Hzero | Hlen].
  { unfold py_truediv in Hrun. rewrite Hzero in Hrun.
    destruct (local_rank =? 0)%Z; simpl in Hrun; discriminate. }
  rewrite py_truediv_ok, py_float_div_ok in Hrun by done.
  destruct (canonicalize_list true (valid_smiles v)) as [smiles' ids].
  destruct (local_rank =? 0)%Z; simpl in Hrun; by injection Hrun as <- _ <- <- <-.
Qed.

(** The percentage that [compute_validity] returns as
    [connected_components] is 100 minus the percentage of molecules
    counted as disconnected, and lies between 0 and 100. *)
Theorem connected_components_is_percentage (generated : list Mol)
    (local_rank : Z) (strict : bool) (s s' : State) (smiles : list string)
    (mols : list Mol) (cc : Q) (err : gmap string nat) :
  compute_validity generated local_rank strict s = (Ok (smiles, mols, cc, err), s') ->
  cc == 100 - 100 * nat_to_Q (counter_get "disconnected" err)
              / nat_to_Q (length generated) /\
  0 <= cc <= 100.
Proof.
  intros Hrun.
  destruct (compute_validity_inv _ _ _ _ _ _ _ _ _ Hrun)
    as (v & Hloop & -> & Hlen & -> & _).
  split; [reflexivity|].
  set (disconnected := counter_get "disconnected" (error_message v)).
  assert (Hle : (disconnected <= length generated)%nat).
  { unfold disconnected.
    etrans; [apply counter_get_le_total|].
    apply validity_loop_counts in Hloop. rewrite Hloop, enumerate_snd. simpl.
    apply length_filter. }
  destruct (count_ratio_bounds disconnected (length generated) Hle Hlen)
    as [Hlow Hhigh].
  set (ratio := nat_to_Q disconnected / nat_to_Q (length generated)) in *.
  assert (Hcc : 100 - 100 * nat_to_Q disconnected / nat_to_Q (length generated)
                == 100 - 100 * ratio) by (unfold ratio; field;
                  intros Hz; apply nat_to_Q_pos in Hlen; rewrite Hz in Hlen;
                  by apply Qlt_irrefl in Hlen).
  rewrite Hcc. clearbody ratio. split; lra.
Qed.

(** *** More on [compute_statistics] *)

(** When the first molecule carries no bond types, none of the bond
    statistics is computed: the five bond entries of the log are the
    sentinel [-1.0], their accumulators and the output are untouched, and
    [angle_distance] is not called.  The charge entry is the sentinel as
    well when the first molecule carries no charges. *)
Theorem statistics_without_bonds (first : Mol) (rest : list Mol) (local_rank : Z)
    (s : State) :
  bond_types first = None ->
  exists (log : StatisticsLog) (s' : State),
    compute_statistics (first :: rest) local_rank s = (Ok log, s') /\
    (EdgeTypesTV log = Fin (-1) /\ ValencyW1 log = Fin (-1) /\
     BondLengthsW1 log = Fin (-1) /\ AnglesW1 log = Fin (-1) /\
     DihedralsW1 log = Fin (-1)) /\
    (edge_types_tv (metrics s') = edge_types_tv (metrics s) /\
     valency_w1 (metrics s') = valency_w1 (metrics s) /\
     bond_lengths_w1 (metrics s') = bond_lengths_w1 (metrics s) /\
     angles_w1 (metrics s') = angles_w1 (metrics s) /\
     dihedrals_w1 (metrics s') = dihedrals_w1 (metrics s)) /\
    angle_distance_calls s' = angle_distance_calls s /\
    stdout s' = stdout s /\
    (charges first = None ->
     ChargeW1 log = Fin (-1) /\ charge_w1 (metrics s') = charge_w1 (metrics s)).
Proof.
  intros Hbonds.
  unfold compute_statistics, forward, mbind, M_bind, bind, lift, modify_metrics,
    modify, get_state, ret.
  simpl.
  destruct (atom_types_distance (test s) (first :: rest)) as [atom_tv ?].
  rewrite Hbonds.
  destruct (charges first);
    [destruct (charge_distance (test s) (first :: rest)) as [charge ?]|];
    simpl; do 2 eexists; (split; [reflexivity|]); simpl;
    repeat split; done.
Qed.


(** *** Range and edge cases of the bulk scores *)

Lemma nat_to_Q_S (n : nat) : nat_to_Q (S n) == 1 + nat_to_Q n.
Proof. unfold nat_to_Q, Qeq, Qplus. simpl. lia. Qed.

Lemma Qsum_unit_bounds (l : list Q) :
  Forall (fun x => 0 <= x <= 1) l -> 0 <= Qsum l <= nat_to_Q (length l).
Proof.
  induction 1 as [|x l [Hx0 Hx1] _ [IH0 IH1]]; simpl.
  - split; apply Qle_refl.
  - rewrite nat_to_Q_S. split; lra.
Qed.

(** The mean of numbers in [0,1] is in [0,1]. *)
Lemma arithmetic_mean_unit_bounds (l : list Q) :
  l ≠ [] -> Forall (fun x => 0 <= x <= 1) l -> 0 <= arithmetic_mean l <= 1.
Proof.
  intros Hne Hall. destruct (Qsum_unit_bounds l Hall) as [Hlow Hhigh].
  assert (Hpos : 0 < nat_to_Q (length l)) by (apply nat_to_Q_pos; by destruct l).
  unfold arithmetic_mean. split.
  - apply Qle_shift_div_l; [done|]. by rewrite Qmult_0_l.
  - apply Qle_shift_div_r; [done|]. by rewrite Qmult_1_l.
Qed.

Lemma Forall_concat_imap {X Y : Type} (P : Y -> Prop) (f : nat -> X -> list Y)
    (l : list X) :
  (forall i x, Forall P (f i x)) -> Forall P (concat (imap f l)).
Proof.
  revert f. induction l as [|x l IH]; intros f Hf; simpl; [constructor|].
  apply Forall_app. split; [apply Hf|]. apply IH. intros i y. apply Hf.
Qed.

Lemma length_concat_imap {X Y : Type} (f : nat -> X -> list Y) (l : list X)
    (k : nat) :
  (forall i x, l !! i = Some x -> length (f i x) = k) ->
  length (concat (imap f l)) = (length l * k)%nat.
Proof.
  revert f. induction l as [|x l IH]; intros f Hf; simpl; [done|].
  rewrite length_app, (Hf 0%nat x eq_refl), IH; [lia|].
  intros i y Hy. by apply (Hf (S i)).
Qed.

(** [get_bulk_similarity_with_train] never raises and never changes the
    instance.  It returns [nan] when there is no generated or no training
    fingerprint; otherwise, similarities being in [0,1], it returns a
    number in [0,1]. *)
Theorem bulk_similarity_range (generated_smiles : list string) (s : State) :
  (forall a b : Fingerprint, 0 <= TanimotoSimilarity a b <= 1) ->
  let fps := get_fingerprints_from_smileslist generated_smiles in
  exists score : fval,
    get_bulk_similarity_with_train generated_smiles s = (Ok score, s) /\
    (score = NaN <-> fps = [] \/ train_fps s = []) /\
    (forall q : Q, score = Fin q -> 0 <= q <= 1).
Proof.
  intros Hunit fps.
  unfold get_bulk_similarity_with_train, mbind, M_bind, bind, get_state, ret.
  fold fps. eexists. split; [reflexivity|].
  set (entries := concat ((fun fp => BulkTanimotoSimilarity fp (train_fps s)) <$> fps)).
  assert (Hall : Forall (fun x => 0 <= x <= 1) entries).
  { unfold entries. apply Forall_concat, Forall_fmap, Forall_forall.
    intros fp _. unfold BulkTanimotoSimilarity. simpl.
    apply Forall_fmap, Forall_forall. intros t _. apply Hunit. }
  assert (Hnil : entries = [] <-> fps = [] \/ train_fps s = []).
  { clear Hall. subst entries. unfold BulkTanimotoSimilarity.
    destruct fps as [|fp fps']; [by split; [left|]|].
    destruct (train_fps s) as [|t ts].
    - split; [by right|]. intros _. simpl.
      induction fps' as [|? ? IH]; [done|]. simpl in *. exact IH.
    - split; [done|]. by intros [|]. }
  destruct entries as [|x entries'] eqn:Hentries.
  - split; [by rewrite <- Hnil|]. by intros q.
  - rewrite np_mean_nonempty by done. split.
    + split; [done|]. intros Hempty. by apply Hnil in Hempty.
    + intros q [= <-]. by apply arithmetic_mean_unit_bounds.
Qed.

(** [get_bulk_diversity] never raises.  With fewer than two generated
    fingerprints there is nothing to compare and the result is [nan].
    With n >= 2 fingerprints it is one minus the mean of the n(n-1)
    similarities of each fingerprint to every other position, a number in
    [0,1] when similarities are. *)
Theorem bulk_diversity_range (generated_smiles : list string) (s : State) :
  (forall a b : Fingerprint, 0 <= TanimotoSimilarity a b <= 1) ->
  let fps := get_fingerprints_from_smileslist generated_smiles in
  let others :=
    concat (imap (fun i fp => TanimotoSimilarity fp <$> delete i fps) fps) in
  length others = (length fps * (length fps - 1))%nat /\
  ((length fps <= 1)%nat -> get_bulk_diversity generated_smiles s = (Ok NaN, s)) /\
  ((2 <= length fps)%nat ->
   get_bulk_diversity generated_smiles s
   = (Ok (Fin (1 - arithmetic_mean others)), s) /\
   0 <= 1 - arithmetic_mean others <= 1).
Proof.
  intros Hunit fps others.
  assert (Hlen : length others = (length fps * (length fps - 1))%nat).
  { unfold others. apply length_concat_imap. intros i fp Hfp.
    rewrite length_fmap, length_delete; [done|]. by eexists. }
  assert (Hrun : get_bulk_diversity generated_smiles s
                 = (Ok (one_minus (np_mean others)), s)) by reflexivity.
  split; [exact Hlen|]. split.
  - intros Hfew. rewrite Hrun.
    assert (Hnil : others = []).
    { apply length_zero_iff_nil. rewrite Hlen.
      destruct (length fps) as [|[|n]]; simpl; lia. }
    by rewrite Hnil.
  - intros Hmany.
    assert (Hne : others ≠ []).
    { intros Hnil. rewrite Hnil in Hlen. simpl in Hlen.
      destruct (length fps) as [|[|n]]; simpl in *; lia. }
    rewrite Hrun, np_mean_nonempty by done. split; [reflexivity|].
    assert (Hall : Forall (fun x => 0 <= x <= 1) others).
    { unfold others. apply Forall_concat_imap. intros i fp.
      apply Forall_fmap, Forall_forall. intros t _. apply Hunit. }
    destruct (arithmetic_mean_unit_bounds others Hne Hall). split; lra.
Qed.

(** *** More on [__call__] *)

(** What a returning call of [__call__] has done, step by step. *)
Lemma call_inv (molecules : list Mol) (local_rank : Z) (return_molecules : bool)
    (s s' : State) (stability_dict : StabilityDict) (validity_dict : ValidityDict)
    (statistics_dict : option StatisticsDict) (smiles_opt : option (list string))
    (mols_opt : option (list Mol)) :
  __call__ molecules local_rank return_molecules s
  = (Ok (stability_dict, validity_dict, statistics_dict, smiles_opt, mols_opt), s') ->
  exists (s0 s1 s2 : State) (stable valid_molecules : list Mol)
         (all_generated_smiles : list string) (validity : fval) (nov uniq : PyNum)
         (cc : Q),
    s0 = (if (local_rank =? 0)%Z then add_line PrintAnalyzingStability s else s) /\
    stability_loop [] molecules s0 = (Ok stable, s1) /\
    evaluate molecules local_rank s1
    = (Ok (valid_molecules, all_generated_smiles, validity, nov, uniq, cc), s2) /\
    dict_validity validity_dict = validity /\
    compute_sanitize_validity molecules = Ok (dict_sanitize_validity validity_dict) /\
    (if (0 <? length valid_molecules)%nat
     then exists d, statistics_dict = Some d /\
                    call_statistics valid_molecules all_generated_smiles cc
                                    local_rank s2 = (Ok d, s')
     else statistics_dict = None /\ s' = s2) /\
    (smiles_opt, mols_opt)
    = (if negb return_molecules || (length valid_molecules =? 0)%nat
       then (None, None)
       else (Some all_generated_smiles, Some valid_molecules)).
Proof.
  intros Hrun. unfold __call__, mbind, M_bind, bind, get_state, lift, ret in Hrun.
  set (s0 := if (local_rank =? 0)%Z then add_line PrintAnalyzingStability s else s).
  assert (Hprint : when (local_rank =? 0)%Z (print PrintAnalyzingStability) s
                   = (Ok tt, s0)) by (unfold s0; by destruct (local_rank =? 0)%Z).
  rewrite Hprint in Hrun.
  destruct (stability_loop [] molecules s0) as [[stable|e] s1] eqn:Hstable;
    [|discriminate].
  destruct (evaluate molecules local_rank s1)
    as [[[[[[[valid_molecules smiles] validity] nov] uniq] cc]|e] s2] eqn:Hev;
    [|discriminate].
  destruct (compute_sanitize_validity molecules) as [sanitize_validity|e] eqn:Hsan;
    [|discriminate].
  exists s0, s1, s2, stable, valid_molecules, smiles, validity, nov, uniq, cc.
  split; [done|]. split; [done|]. split; [done|].
  destruct (0 <? length valid_molecules)%nat eqn:Hvalid.
  - destruct (call_statistics valid_molecules smiles cc local_rank s2)
      as [[d|e] s3] eqn:Hstats; [|discriminate].
    destruct (negb return_molecules || (length valid_molecules =? 0)%nat);
      injection Hrun as <- <- <- <- <- <-; repeat split; eauto.
  - destruct (negb return_molecules || (length valid_molecules =? 0)%nat);
      injection Hrun as <- <- <- <- <- <-; repeat split; eauto.
Qed.

(** [__call__] on an empty list raises [ZeroDivisionError] (from
    [compute_validity]); no accumulator has changed. *)
Theorem call_on_no_molecules (local_rank : Z) (return_molecules : bool) (s : State) :
  (__call__ [] local_rank return_molecules s).1 = Raise ZeroDivisionError /\
  metrics (__call__ [] local_rank return_molecules s).2 = metrics s.
Proof.
  unfold __call__, evaluate, compute_validity, mbind, M_bind, bind, get_state,
    lift, ret, when, print, modify.
  destruct (local_rank =? 0)%Z; simpl; by split.
Qed.

(** When [__call__] returns, the two optional lists come together: they
    are the canonical strings and the valid molecules exactly when
    [return_molecules] is set and there is a statistics dictionary, that
    is, at least one valid molecule; otherwise both are [None].  Whenever
    a statistics dictionary is returned, every accumulator has been
    reset. *)
Theorem call_returns_lists_with_statistics (molecules : list Mol)
    (local_rank : Z) (return_molecules : bool) (s s' : State)
    (stability_dict : StabilityDict) (validity_dict : ValidityDict)
    (statistics_dict : option StatisticsDict) (smiles_opt : option (list string))
    (mols_opt : option (list Mol)) :
  __call__ molecules local_rank return_molecules s
  = (Ok (stability_dict, validity_dict, statistics_dict, smiles_opt, mols_opt), s') ->
  (is_Some smiles_opt <-> is_Some mols_opt) /\
  (is_Some mols_opt <-> return_molecules = true /\ is_Some statistics_dict) /\
  (forall mols, mols_opt = Some mols -> mols ≠ []) /\
  (is_Some statistics_dict -> metrics s' = fresh_metrics).
Proof.
  intros Hrun.
  destruct (call_inv _ _ _ _ _ _ _ _ _ _ Hrun)
    as (s0 & s1 & s2 & stable & valid_molecules & smiles & validity & nov & uniq
        & cc & _ & _ & _ & _ & _ & Hstats & Hlists).
  destruct valid_molecules as [|mol valid_molecules]; simpl in Hstats, Hlists.
  - destruct Hstats as [-> ->]. rewrite orb_true_r in Hlists.
    injection Hlists as -> ->.
    repeat split; try (by intros [? [=]]); try (by intros [_ [? [=]]]); done.
  - destruct Hstats as (d & -> & Hstats). rewrite orb_false_r in Hlists.
    destruct return_molecules; simpl in Hlists; injection Hlists as -> ->.
    + repeat split; eauto; try (by intros ? [= <-]).
      intros _. by apply call_statistics_resets in Hstats.
    + repeat split; try (by intros [? [=]]); try (by intros [[=] _]); try done.
      intros _. by apply call_statistics_resets in Hstats.
Qed.

(** *** What the methods never change *)

(** The training strings, their fingerprints and the [test] flag are the
    same in [s'] as in [s]. *)
Definition same_training (s s' : State) : Prop :=
  train_smiles s' = train_smiles s /\
  train_fps s' = train_fps s /\
  test s' = test s.

(** Method [m] leaves the training data alone, whether it returns or
    raises. *)
Definition keeps_training {A : Type} (m : M A) : Prop :=
  forall s : State, same_training s (m s).2.

Lemma keeps_training_ret {A} (a : A) : keeps_training (ret a).
Proof. by intros s. Qed.

Lemma keeps_training_lift {A} (r : Result A) : keeps_training (lift r).
Proof. by intros s. Qed.

Lemma keeps_training_get_state : keeps_training get_state.
Proof. by intros s. Qed.

Lemma keeps_training_modify_metrics (f : Metrics -> Metrics) :
  keeps_training (modify_metrics f).
Proof. by intros s. Qed.

Lemma keeps_training_print (l : Line) : keeps_training (print l).
Proof. by intros s. Qed.

Lemma keeps_training_bind {A B} (m : M A) (k : A -> M B) :
  keeps_training m -> (forall a, keeps_training (k a)) -> keeps_training (m ≫= k).
Proof.
  intros Hm Hk s. unfold mbind, M_bind, bind.
  specialize (Hm s). destruct (m s) as [[a|e] s1]; simpl in Hm.
  - specialize (Hk a s1). destruct Hm as (? & ? & ?), Hk as (? & ? & ?).
    repeat split; congruence.
  - exact Hm.
Qed.

Lemma keeps_training_when (b : bool) (m : M unit) :
  keeps_training m -> keeps_training (when b m).
Proof. intros Hm. destruct b; [done | apply keeps_training_ret]. Qed.

Ltac keeps_training_step :=
  first
    [ apply keeps_training_ret
    | apply keeps_training_lift
    | apply keeps_training_get_state
    | apply keeps_training_modify_metrics
    | apply keeps_training_print
    | apply keeps_training_when
    | apply keeps_training_bind; [|intros]
    | match goal with
      | |- keeps_training (match ?x with _ => _ end) => destruct x
      | |- keeps_training (if ?b then _ else _) => destruct b
      end
    | progress cbv zeta ].

Lemma keeps_training_compute_validity (generated : list Mol) (local_rank : Z)
    (strict : bool) :
  keeps_training (compute_validity generated local_rank strict).
Proof. unfold compute_validity. repeat keeps_training_step. Qed.

Lemma keeps_training_evaluate (generated : list Mol) (local_rank : Z) :
  keeps_training (evaluate generated local_rank).
Proof.
  unfold evaluate. apply keeps_training_bind.
  { apply keeps_training_compute_validity. }
  intros [[[smiles mols] cc] err]. unfold evaluate_unique.
  repeat keeps_training_step.
Qed.

Lemma keeps_training_stability_loop (molecules stable : list Mol) :
  keeps_training (stability_loop stable molecules).
Proof.
  revert stable. induction molecules as [|mol molecules IH]; intros stable; simpl.
  - apply keeps_training_ret.
  - apply keeps_training_bind; [|intros; apply IH].
    unfold stability_body.
    destruct (match bond_types mol with
              | Some _ => check_stability mol
              | None => check_stability_without_bonds mol
              end) as [[is_stable at_stable] num_bonds].
    repeat keeps_training_step.
Qed.

Lemma keeps_training_compute_statistics (molecules : list Mol) (local_rank : Z) :
  keeps_training (compute_statistics molecules local_rank).
Proof.
  unfold compute_statistics, bond_statistics, angle_step, forward.
  repeat keeps_training_step.
  all: try (intros s0; done).
Qed.

(** The bookkeeping of the branch with valid molecules. *)
Lemma call_statistics_inv (valid_molecules : list Mol)
    (all_generated_smiles : list string) (connected_components : Q)
    (local_rank : Z) (s s' : State) (d : StatisticsDict) :
  call_statistics valid_molecules all_generated_smiles connected_components
                  local_rank s = (Ok d, s') ->
  exists train : list string,
    train_smiles s = Some train /\
    number_samples s' = length all_generated_smiles /\
    train_subset s'
    = Some (if (length all_generated_smiles <=? length train)%nat
            then get_random_subset train (length all_generated_smiles)
            else train) /\
    dict_connected_components d = connected_components.
Proof.
  unfold call_statistics. intros Hrun.
  pose proof (keeps_training_compute_statistics valid_molecules local_rank s)
    as (Htrain & _ & _).
  unfold mbind, M_bind, bind in Hrun.
  destruct (compute_statistics valid_molecules local_rank s) as [[log|e] s1];
    [|discriminate].
  simpl in Htrain. unfold modify, get_state, lift, ret in Hrun. simpl in Hrun.
  rewrite Htrain in Hrun.
  destruct (train_smiles s) as [train|]; [|discriminate].
  exists train. split; [done|].
  unfold get_bulk_similarity_with_train, get_bulk_diversity, get_kl_divergence,
    reset, modify_metrics, modify, print, mbind, M_bind, bind, get_state, lift, ret
    in Hrun.
  simpl in Hrun.
  destruct (0 <? length all_generated_smiles)%nat; simpl in Hrun;
    injection Hrun as <- <-; by repeat split.
Qed.

(** After a call of [__call__] that returns the molecules, the instance
    remembers how many canonical strings were generated, and the training
    subset it used: a random subset of that size (seed 42) when the
    training set is at least that large, and the whole training set when
    more strings were generated than the training set holds. *)
Theorem call_training_subset (molecules valid_molecules : list Mol)
    (local_rank : Z) (s s' : State) (stability_dict : StabilityDict)
    (validity_dict : ValidityDict) (statistics_dict : option StatisticsDict)
    (all_generated_smiles train : list string) :
  train_smiles s = Some train ->
  __call__ molecules local_rank true s
  = (Ok (stability_dict, validity_dict, statistics_dict,
         Some all_generated_smiles, Some valid_molecules), s') ->
  number_samples s' = length all_generated_smiles /\
  ((length all_generated_smiles <= length train)%nat ->
   train_subset s'
   = Some (get_random_subset train (length all_generated_smiles))) /\
  ((length train < length all_generated_smiles)%nat ->
   train_subset s' = Some train).
Proof.
  intros Htrain Hrun.
  destruct (call_inv _ _ _ _ _ _ _ _ _ _ Hrun)
    as (s0 & s1 & s2 & stable & vm & smiles & validity & nov & uniq & cc
        & Hs0 & Hstable & Hev & _ & _ & Hstats & Hlists).
  assert (Htrain2 : train_smiles s2 = Some train).
  { pose proof (keeps_training_stability_loop molecules [] s0) as (H1 & _).
    pose proof (keeps_training_evaluate molecules local_rank s1) as (H2 & _).
    rewrite Hstable in H1. rewrite Hev in H2. simpl in H1, H2.
    rewrite H2, H1, Hs0. by destruct (local_rank =? 0)%Z. }
  simpl in Hlists.
  destruct vm as [|mol vm]; simpl in Hlists; [discriminate|].
  injection Hlists as -> ->.
  simpl in Hstats. destruct Hstats as (d & _ & Hstats).
  apply call_statistics_inv in Hstats as (train' & Htrain' & Hn & Hsubset & _).
  rewrite Htrain2 in Htrain'. injection Htrain' as <-.
  split; [done|]. rewrite Hsubset. split; intros Hlen.
  - apply Nat.leb_le in Hlen. by rewrite Hlen.
  - apply Nat.leb_gt in Hlen. by rewrite Hlen.
Qed.

(** *** More on [evaluate] *)

(** When [evaluate] returns, its call of [compute_validity] returned. *)
Lemma evaluate_inv (generated : list Mol) (local_rank : Z) (s s' : State)
    (valid_mols : list Mol) (smiles : list string) (validity : fval)
    (nov uniq : PyNum) (cc : Q) :
  evaluate generated local_rank s
  = (Ok (valid_mols, smiles, validity, nov, uniq, cc), s') ->
  exists (err : gmap string nat) (s1 : State),
    compute_validity generated local_rank true s
    = (Ok (smiles, valid_mols, cc, err), s1) /\
    validity = mean_compute (validity_metric (metrics s1)) /\
    (smiles = [] ->
     nov = PyInt 0 /\ uniq = PyInt 0 /\ metrics s' = metrics s1) /\
    (smiles ≠ [] -> exists a b : fval, nov = PyTensor a /\ uniq = PyTensor b).
Proof.
  unfold evaluate, mbind, M_bind, bind. intros Hrun.
  destruct (compute_validity generated local_rank true s)
    as [[[[[smiles' mols'] cc'] err]|e] s1] eqn:Hcv; [|discriminate].
  unfold get_state in Hrun. simpl in Hrun.
  exists err, s1.
  destruct smiles' as [|x smiles']; simpl in Hrun.
  - unfold ret, when, print, modify, mbind, M_bind, bind in Hrun.
    destruct (local_rank =? 0)%Z; simpl in Hrun;
      injection Hrun as <- <- <- <- <- <- <-; by repeat split.
  - destruct (evaluate_unique (x :: smiles') s1) as [[[u n]|e] s2] eqn:Hunique;
      [|discriminate].
    assert (Htensor : exists a b, n = PyTensor a /\ u = PyTensor b).
    { clear Hrun. unfold evaluate_unique, mbind, M_bind, bind, lift,
        modify_metrics, modify, get_state, ret in Hunique.
      destruct (py_truediv _ _); [|discriminate]. simpl in Hunique.
      destruct (train_smiles s1); simpl in Hunique.
      - destruct (py_truediv _ _); [|discriminate]. simpl in Hunique.
        injection Hunique as <- <- _. eauto.
      - injection Hunique as <- <- _. eauto. }
    unfold ret, when, print, modify, mbind, M_bind, bind in Hrun.
    destruct (local_rank =? 0)%Z; simpl in Hrun;
      injection Hrun as <- <- <- <- <- <- <-; by repeat split.
Qed.

(** When no canonical string survives, [evaluate] returns the [int] 0 for
    both uniqueness and novelty and leaves their accumulators untouched;
    otherwise both are tensors read from the accumulators. *)
Theorem evaluate_without_valid_smiles (generated : list Mol) (local_rank : Z)
    (s s' : State) (valid_mols : list Mol) (smiles : list string)
    (validity : fval) (nov uniq : PyNum) (cc : Q) :
  evaluate generated local_rank s
  = (Ok (valid_mols, smiles, validity, nov, uniq, cc), s') ->
  (smiles = [] ->
   nov = PyInt 0 /\ uniq = PyInt 0 /\
   uniqueness (metrics s') = uniqueness (metrics s) /\
   novelty (metrics s') = novelty (metrics s)) /\
  (smiles ≠ [] -> exists a b : fval, nov = PyTensor a /\ uniq = PyTensor b).
Proof.
  intros Hrun.
  destruct (evaluate_inv _ _ _ _ _ _ _ _ _ _ Hrun)
    as (err & s1 & Hcv & _ & Hnone & Hsome).
  split; [|exact Hsome]. intros Hnil.
  destruct (Hnone Hnil) as (-> & -> & ->).
  apply compute_validity_inv in Hcv as (v & _ & _ & _ & _ & _ & Hu & Hn & _).
  by repeat split.
Qed.

(** *** [analyze_stability_for_molecules] *)

(** The stability loop raises nothing and touches only the two stability
    accumulators. *)
Lemma stability_loop_frame (molecules stable : list Mol) (s : State) :
  exists (stable' : list Mol) (s' : State),
    stability_loop stable molecules s = (Ok stable', s') /\
    validity_metric (metrics s') = validity_metric (metrics s).
Proof.
  revert stable s. induction molecules as [|mol molecules IH]; intros stable s.
  - by exists stable, s.
  - simpl. unfold mbind, M_bind, bind, stability_body.
    destruct (match bond_types mol with
              | Some _ => check_stability mol
              | None => check_stability_without_bonds mol
              end) as [[is_stable at_stable] num_bonds].
    unfold modify_metrics, modify, ret. simpl.
    match goal with
    | |- context [stability_loop ?st molecules ?s1] =>
        destruct (IH st s1) as (stable' & s' & Hrun & Hframe)
    end.
    exists stable', s'. by rewrite Hrun, Hframe.
Qed.

(** The module-level entry point: a new instance (with [test=False]) is
    built for every call. *)
Definition analyze_stability_for_molecules (molecule_list : list Mol)
    (smiles_train : list string) (local_rank : Z) (return_molecules : bool)
    : Result (StabilityDict * ValidityDict * option StatisticsDict
              * option (list string) * option (list Mol)) :=
  (__call__ molecule_list local_rank return_molecules
            (__init__ smiles_train false)).1.

Lemma mean_compute_first (value w : Q) :
  0 < w ->
  exists q : Q, mean_compute (mean_update value w mean_init) = Fin q /\ q == value.
Proof.
  intros Hw. unfold mean_compute, mean_update, mean_init. simpl.
  destruct (Qeq_bool (0 + w) 0) eqn:Hzero.
  - apply Qeq_bool_eq in Hzero. lra.
  - eexists. split; [reflexivity|]. field. lra.
Qed.

(** Because every call works on a new instance, the validity that
    [analyze_stability_for_molecules] reports is always valid_count /
    total_count of its own batch. *)
Theorem analyze_reports_batch_validity (molecule_list : list Mol)
    (smiles_train : list string) (local_rank : Z) (return_molecules : bool)
    (stability_dict : StabilityDict) (validity_dict : ValidityDict)
    (statistics_dict : option StatisticsDict) (smiles_opt : option (list string))
    (mols_opt : option (list Mol)) :
  analyze_stability_for_molecules molecule_list smiles_train local_rank
                                  return_molecules
  = Ok (stability_dict, validity_dict, statistics_dict, smiles_opt, mols_opt) ->
  exists (v : VState) (q : Q),
    for_each (validity_body true) vstate_init (enumerate molecule_list) = Ok v /\
    dict_validity validity_dict = Fin q /\
    q == nat_to_Q (length (valid_smiles v)) / nat_to_Q (length molecule_list) /\
    0 <= q <= 1.
Proof.
  unfold analyze_stability_for_molecules. intros Hrun.
  destruct (__call__ _ _ _ _) as [r s'] eqn:Hcall. simpl in Hrun. subst r.
  destruct (call_inv _ _ _ _ _ _ _ _ _ _ Hcall)
    as (s0 & s1 & s2 & stable & vm & smiles & validity & nov & uniq & cc
        & Hs0 & Hstable & Hev & Hvalidity & _).
  destruct (stability_loop_frame molecule_list [] s0)
    as (stable' & s1' & Hstable' & Hframe).
  rewrite Hstable in Hstable'. injection Hstable' as <- <-.
  assert (Hfresh : validity_metric (metrics s1) = mean_init).
  { rewrite Hframe, Hs0. by destruct (local_rank =? 0)%Z. }
  destruct (evaluate_inv _ _ _ _ _ _ _ _ _ _ Hev) as (err & s3 & Hcv & _).
  apply compute_validity_inv in Hcv as (v & Hloop & _ & Hlen & _).
  assert (Hne : molecule_list ≠ []) by (by destruct molecule_list).
  destruct (evaluate_validity molecule_list local_rank s1 v Hne Hloop)
    as (vm' & smiles' & nov' & uniq' & cc' & s2' & Hev').
  rewrite Hev in Hev'. injection Hev' as _ _ Hval _ _ _ _.
  rewrite Hfresh in Hval.
  destruct (mean_compute_first
              (nat_to_Q (length (valid_smiles v)) / nat_to_Q (length molecule_list))
              (nat_to_Q (length molecule_list)) (nat_to_Q_pos _ Hlen))
    as (q & Hq & Heq).
  exists v, q. split; [done|]. split; [by rewrite Hvalidity, Hval|].
  split; [done|]. rewrite Heq. apply count_ratio_bounds; [|done].
  apply validity_loop_valid_smiles in Hloop.
  rewrite enumerate_length in Hloop. simpl in Hloop. lia.
Qed.

End Methods.

(** ** A small chemistry for worked examples

    A molecule is given by what RDKit would answer on it. *)
Record ToyMol := {
  toy_fragments : nat;
  toy_sanitize_error : option Exn;
  toy_bond_orders : Matrix;
  toy_sanitized_bond_orders : Matrix;
  (** Per atom, after sanitization: implicit hydrogens and radical
      electrons. *)
  toy_atoms : list (nat * nat);
  toy_smiles : string;
  toy_is_sanitized : bool;
}.

Definition toy_sanitized (m : ToyMol) : ToyMol :=
  {| toy_fragments := toy_fragments m;
     toy_sanitize_error := toy_sanitize_error m;
     toy_bond_orders := toy_bond_orders m;
     toy_sanitized_bond_orders := toy_sanitized_bond_orders m;
     toy_atoms := toy_atoms m; toy_smiles := toy_smiles m;
     toy_is_sanitized := true |}.

#[export] Instance toy_rdkit : RDKit := {|
  RdMol := ToyMol;
  Atom := nat * nat;
  GetAdjacencyMatrix m :=
    if toy_is_sanitized m then toy_sanitized_bond_orders m else toy_bond_orders m;
  GetMolFrags m := Ok (replicate (toy_fragments m) m);
  SanitizeMol m :=
    match toy_sanitize_error m with
    | Some e => Raise e
    | None => Ok (toy_sanitized m)
    end;
  GetAtoms := toy_atoms;
  GetNumImplicitHs := fst;
  GetNumRadicalElectrons := snd;
  MolToSmiles m := Ok (toy_smiles m);
|}.

(** Duplicates removed, first occurrence kept, with the indices of the
    dropped elements. *)
Fixpoint remove_duplicates (seen : list string) (i : nat) (l : list string)
    : list string * list nat :=
  match l with
  | [] => ([], [])
  | x :: rest =>
      if bool_decide (x ∈ seen)
      then let '(unique, ids) := remove_duplicates seen (S i) rest in
           (unique, i :: ids)
      else let '(unique, ids) := remove_duplicates (x :: seen) (S i) rest in
           (x :: unique, ids)
  end.

(** Fingerprints are string lengths and the similarity of two of them is
    smaller / larger; the reference distances are constants, and the
    sparsity level is 0.7 for a single molecule and 0.6999 otherwise. *)
#[export] Instance toy_utils : SamplingUtils := {|
  TorchTensor := unit;
  Fingerprint := nat;
  Descriptors := unit;
  canonicalize_list _ l := remove_duplicates [] 0 l;
  get_fingerprints_from_smileslist l := String.length <$> l;
  get_random_subset l n := take n l;
  TanimotoSimilarity a b :=
    inject_Z (Z.of_nat (a `min` b)) / inject_Z (Z.of_nat (a `max` b));
  get_similarity p :=
    inject_Z (Z.of_nat (p.1 `min` p.2)) / inject_Z (Z.of_nat (p.1 `max` p.2));
  check_stability _ := (true, 2, 2);
  check_stability_without_bonds _ := (true, 2, 2);
  number_nodes_distance _ _ := 1 # 10;
  atom_types_distance _ _ := (1 # 10, []);
  charge_distance _ _ := (1 # 10, []);
  bond_types_distance _ molecules :=
    (1 # 10, [], match molecules with
                 | [_] => 7 # 10
                 | _ => 6999 # 10000
                 end);
  valency_distance _ _ := (1 # 10, []);
  bond_length_distance _ _ := (1 # 10, []);
  angle_distance _ _ := (3 # 10, []);
  dihedral_distance _ _ := (1 # 10, []);
  num_atom_types := 5;
  calculate_pc_descriptors _ _ := tt;
  column _ _ := [];
  continuous_kldiv _ _ := 0%R;
  discrete_kldiv _ _ := 0%R;
  internal_similarity_max _ := [];
  mean_qed _ := Fin (1 # 2);
|}.

(** Ethane: one fragment, untouched by sanitization. *)
Definition ethane : ToyMol :=
  {| toy_fragments := 1; toy_sanitize_error := None;
     toy_bond_orders := [[0 # 2; 2 # 2]; [2 # 2; 0 # 2]];
     toy_sanitized_bond_orders := [[0 # 2; 2 # 2]; [2 # 2; 0 # 2]];
     toy_atoms := [(0, 0); (0, 0)]%nat; toy_smiles := "CC";
     toy_is_sanitized := false |}.

(** Two fragments in one molecule object. *)
Definition two_pieces : ToyMol :=
  {| toy_fragments := 2; toy_sanitize_error := None;
     toy_bond_orders := [[0 # 2; 0 # 2]; [0 # 2; 0 # 2]];
     toy_sanitized_bond_orders := [[0 # 2; 0 # 2]; [0 # 2; 0 # 2]];
     toy_atoms := [(0, 0); (0, 0)]%nat; toy_smiles := "C.C";
     toy_is_sanitized := false |}.

(** One fragment whose single bond becomes a double bond on
    sanitization, and which keeps an unpaired electron. *)
Definition shifted_radical : ToyMol :=
  {| toy_fragments := 1; toy_sanitize_error := None;
     toy_bond_orders := [[0 # 2; 2 # 2]; [2 # 2; 0 # 2]];
     toy_sanitized_bond_orders := [[0 # 2; 4 # 2]; [4 # 2; 0 # 2]];
     toy_atoms := [(0, 1); (0, 0)]%nat; toy_smiles := "[CH]=C";
     toy_is_sanitized := false |}.

(** One fragment with an unpaired electron and unchanged bond orders. *)
Definition plain_radical : ToyMol :=
  {| toy_fragments := 1; toy_sanitize_error := None;
     toy_bond_orders := [[0 # 2; 2 # 2]; [2 # 2; 0 # 2]];
     toy_sanitized_bond_orders := [[0 # 2; 2 # 2]; [2 # 2; 0 # 2]];
     toy_atoms := [(0, 1); (0, 0)]%nat; toy_smiles := "[CH2]C";
     toy_is_sanitized := false |}.

(** A generated molecule with bond types and without charges. *)
Definition generated_from (m : ToyMol) : Molecule TorchTensor :=
  {| rdkit_mol := Some m; bond_types := Some tt; charges := None |}.


(** ** Worked examples *)

(** A float is the finite number [q]. *)
Definition fval_is (x : option fval) (q : Q) : Prop :=
  match x with
  | Some (Fin p) => p == q
  | _ => False
  end.

(** An instance trained on one string, and one without training strings. *)
Definition trained : State := __init__ ["CCO"] false.

Definition untrained : State := __init__ [] false.

(** Three molecules, one per outcome: passed, disconnected, wrong bond
    order. *)
Definition mixed_batch : list (Molecule TorchTensor) :=
  [generated_from ethane; generated_from two_pieces; generated_from shifted_radical].

Example mixed_batch_counts :
  exists smiles mols cc err s',
    compute_validity mixed_batch 0 true trained = (Ok (smiles, mols, cc, err), s') /\
    counter_get "passed" err = 1%nat /\
    counter_get "disconnected" err = 1%nat /\
    counter_get "wrong_bo" err = 1%nat /\
    counter_get "radicals" err = 0%nat.
Proof.
  do 5 eexists. split; [vm_compute; reflexivity|]. by vm_compute.
Qed.

(** Witness of C6 on the mixed batch. *)
Lemma error_counts_sum_to_input_witness :
  exists smiles mols cc err s',
    compute_validity mixed_batch 0 true trained = (Ok (smiles, mols, cc, err), s') /\
    counter_total err = 3%nat.
Proof.
  destruct (compute_validity mixed_batch 0 true trained)
    as [[[[[smiles mols] cc] err]|e] s'] eqn:Hrun.
  - exists smiles, mols, cc, err, s'. split; [reflexivity|].
    apply (error_counts_sum_to_input mixed_batch 0 true trained s' smiles mols cc err);
      [|exact Hrun].
    repeat constructor; discriminate.
  - vm_compute in Hrun. discriminate.
Defined.

(** Witness of C3 on a radical whose bond orders do not change. *)
Lemma strict_checks_in_order_witness :
  let mol := generated_from plain_radical in
  let sanitized := toy_sanitized plain_radical in
  let changed :=
    changed_by_more_than (1 # 2) (GetAdjacencyMatrix plain_radical)
                         (GetAdjacencyMatrix sanitized) in
  let radicals := (0 < total_radical_electrons sanitized)%nat in
  (changed ->
   validity_body true vstate_init (0%nat, mol)
   = Ok (count "wrong_bo" (append_components 1 vstate_init))) /\
  (~ changed -> radicals ->
   validity_body true vstate_init (0%nat, mol)
   = Ok (count "radicals" (append_components 1 vstate_init))) /\
  (forall v', validity_body true vstate_init (0%nat, mol) = Ok v' ->
     (excluded_as "wrong_bo" vstate_init v' <-> changed) /\
     (excluded_as "radicals" vstate_init v' <-> ~ changed /\ radicals)).
Proof.
  apply (strict_checks_in_order vstate_init 0 (generated_from plain_radical)
           plain_radical plain_radical (toy_sanitized plain_radical));
    try reflexivity;
    repeat constructor; eexists; reflexivity.
Defined.

(** Counterexample to C3 as stated: the bond order of [shifted_radical]
    changes by one and an unpaired electron remains; the molecule is
    excluded as ["wrong_bo"], so the radical count is positive although
    the category is not ["radicals"]. *)
Lemma strict_checks_as_stated_fails :
  ~ strict_checks_as_stated vstate_init 0 (generated_from shifted_radical)
      shifted_radical shifted_radical (toy_sanitized shifted_radical).
Proof.
  intros Hclaim.
  destruct (Hclaim eq_refl eq_refl eq_refl
              (count "wrong_bo" (append_components 1 vstate_init)) eq_refl)
    as [_ [_ Hradicals]].
  destruct Hradicals as [Hcat _]; [vm_compute; lia|].
  simpl in Hcat. apply counter_incr_inj in Hcat. discriminate.
Qed.


(** The loop's final state on the batch [ethane; two_pieces]. *)
Definition ethane_and_pieces : list (Molecule TorchTensor) :=
  [generated_from ethane; generated_from two_pieces].

Definition ethane_and_pieces_loop : VState :=
  count "disconnected"
    (append_components 2
       (count "passed"
          (append_valid "CC" 0 (generated_from ethane)
             (append_components 1 vstate_init)))).

(** Witness of C4: one valid molecule out of two on a new instance. *)
Lemma validity_is_running_mean_witness :
  exists (valid_mols : list (Molecule TorchTensor)) (smiles : list string)
         (validity : Q) (nov uniq : PyNum) (cc : Q) (s' : State),
    evaluate ethane_and_pieces 0 trained
    = (Ok (valid_mols, smiles, Fin validity, nov, uniq, cc), s') /\
    validity == (0 + nat_to_Q 1) / (0 + nat_to_Q 2) /\
    0 <= validity <= 1 /\
    (0 == 0 -> 0 == 0 -> validity == nat_to_Q 1 / nat_to_Q 2).
Proof.
  apply (validity_is_running_mean ethane_and_pieces 0 trained ethane_and_pieces_loop).
  - discriminate.
  - vm_compute. reflexivity.
  - apply Qle_refl.
  - apply Qle_refl.
Defined.

(** Counterexample to C4 as stated: after a batch without valid molecule
    has been evaluated, the same instance reports validity 1/2 for a
    batch whose only molecule is valid. *)
Lemma reports_batch_validity_fails :
  ~ reports_batch_validity [generated_from ethane] 0
      (evaluate [generated_from two_pieces] 0 trained).2.
Proof.
  intros Hclaim.
  destruct (Hclaim (count "passed"
                      (append_valid "CC" 0 (generated_from ethane)
                         (append_components 1 vstate_init)))
                   (Fin (1 # 2)))
    as (q & Hq & Hratio).
  - vm_compute. reflexivity.
  - vm_compute. reflexivity.
  - injection Hq as <-. vm_compute in Hratio. discriminate.
Qed.

Example second_batch_validity :
  fval_is (evaluate_validity_of
             (evaluate [generated_from ethane] 0
                (evaluate [generated_from two_pieces] 0 trained).2).1) (1 # 2) /\
  fval_is (evaluate_validity_of
             (evaluate [generated_from ethane] 0 trained).1) 1.
Proof. split; vm_compute; reflexivity. Qed.

(** Witness of C5: a single molecule has sparsity level exactly 0.7 here,
    so the angle distance is computed. *)
Lemma angle_distance_cutoff_witness :
  let molecules := [generated_from ethane] in
  let sparsity_level := (bond_types_distance (test trained) molecules).2 in
  exists (log : StatisticsLog) (s' : State),
    compute_statistics molecules 0 trained = (Ok log, s') /\
    (angle_distance_calls s' = S (angle_distance_calls trained)
     <-> sparsity_threshold <= sparsity_level) /\
    (angle_distance_calls s' = angle_distance_calls trained
     <-> sparsity_level < sparsity_threshold) /\
    (sparsity_threshold <= sparsity_level ->
     angles_w1 (metrics s')
     = mean_update (angle_distance (test trained) molecules).1 1
                   (angles_w1 (metrics trained))) /\
    (sparsity_level < sparsity_threshold ->
     angles_w1 (metrics s') = mean_update 0 1 (angles_w1 (metrics trained)) /\
     AnglesW1 log = mean_compute (mean_update 0 1 (angles_w1 (metrics trained))) /\
     (angles_w1 (metrics trained) = mean_init ->
      exists q : Q, AnglesW1 log = Fin q /\ q == 0)).
Proof.
  apply (angle_distance_cutoff (generated_from ethane) [] tt 0 trained).
  reflexivity.
Defined.

(** At 0.7 the angle distance is computed, at 0.6999 it is not. *)
Example angle_cutoff_boundary :
  angle_distance_calls (compute_statistics [generated_from ethane] 0 trained).2 = 1%nat /\
  fval_is (Some (AnglesW1 (match (compute_statistics [generated_from ethane] 0 trained).1 with
                           | Ok log => log
                           | Raise _ => Build_StatisticsLog NaN NaN NaN NaN NaN NaN NaN NaN
                           end))) (3 # 10) /\
  angle_distance_calls
    (compute_statistics [generated_from ethane; generated_from ethane] 0 trained).2
  = 0%nat /\
  fval_is (Some (AnglesW1
                   (match (compute_statistics
                             [generated_from ethane; generated_from ethane] 0 trained).1 with
                    | Ok log => log
                    | Raise _ => Build_StatisticsLog NaN NaN NaN NaN NaN NaN NaN NaN
                    end))) 0.
Proof. repeat split; vm_compute; reflexivity. Qed.


(** The two methods differ: pairs (1/2, 1/2, 1/3, 3/4) average to 25/48,
    the per-molecule maxima (1/2, 3/4) to 5/8. *)
Example bulk_and_max_similarity_differ :
  fval_is (match (get_bulk_similarity_with_train ["CC"; "CCC"]
                    (__init__ ["C"; "CCCC"] false)).1 with
           | Ok x => Some x
           | Raise _ => None
           end) (25 # 48) /\
  fval_is (match (get_similarity_with_train ["CC"; "CCC"] false
                    (__init__ ["C"; "CCCC"] false)).1 with
           | Ok x => Some x
           | Raise _ => None
           end) (5 # 8).
Proof. split; vm_compute; reflexivity. Qed.

(** Witness of C9: an instance whose training subset has been set. *)
Lemma kl_score_is_mean_of_ten_witness :
  let s := set_train_subset ["CCO"] trained in
  let vs := kl_values ["CC"] ["CCO"] in
  length vs = 10%nat /\
  get_kl_divergence ["CC"] s = (Ok (sum_exp_neg vs / 10)%R, s) /\
  (Forall (fun v => (0 <= v)%R) vs -> (0 < sum_exp_neg vs / 10 <= 1)%R).
Proof.
  apply (kl_score_is_mean_of_ten ["CC"] ["CCO"] (set_train_subset ["CCO"] trained)).
  reflexivity.
Defined.


(** C1 on a concrete instance.  A first call of [__call__] whose batch has
    no valid molecule returns without resetting: the validity accumulator
    keeps weight one.  A second call on a batch whose only molecule is
    valid then reports validity 1/2, where a new instance reports 1; only
    that second call, which has a valid molecule, ends with all
    accumulators reset. *)
Theorem call_without_valid_molecule_keeps_accumulators :
  let first := __call__ [generated_from two_pieces] 0 false trained in
  let second := __call__ [generated_from ethane] 0 false first.2 in
  fval_is (call_validity first.1) 0 /\
  metrics first.2 ≠ fresh_metrics /\
  weight (validity_metric (metrics first.2)) == 1 /\
  fval_is (call_validity second.1) (1 # 2) /\
  fval_is (call_validity (__call__ [generated_from ethane] 0 false trained).1) 1 /\
  metrics second.2 = fresh_metrics.
Proof.
  cbv zeta. split; [vm_compute; reflexivity|].
  split.
  { intros Hreset.
    assert (Hweight : weight (validity_metric
                                (metrics (__call__ [generated_from two_pieces] 0 false
                                            trained).2))
                      = weight (validity_metric fresh_metrics))
      by (by rewrite Hreset).
    vm_compute in Hweight. discriminate. }
  repeat split; vm_compute; reflexivity.
Qed.

(** C2 on concrete instances.  With an empty training set, [evaluate]
    returns the [int] 0 as novelty for a batch without valid molecule, and
    prints no notice even when it returns 1.  With [train_smiles] absent
    it returns the value of the never-updated accumulator, which is not a
    number, again without notice, and [__call__] raises [TypeError] at
    [len(self.train_smiles)].  Only the helper [compute_novelty] prints
    the notice and returns 1. *)
Theorem evaluate_novelty_without_training_set :
  let absent := without_train_smiles untrained in
  let empty_invalid := evaluate [generated_from two_pieces] 0 untrained in
  let empty_valid := evaluate [generated_from ethane] 0 untrained in
  let absent_valid := evaluate [generated_from ethane] 0 absent in
  evaluate_novelty_of empty_invalid.1 = Some (PyInt 0) /\
  existsb is_novelty_notice (stdout empty_invalid.2) = false /\
  fval_is (item <$> evaluate_novelty_of empty_valid.1) 1 /\
  existsb is_novelty_notice (stdout empty_valid.2) = false /\
  evaluate_novelty_of absent_valid.1 = Some (PyTensor NaN) /\
  existsb is_novelty_notice (stdout absent_valid.2) = false /\
  (__call__ [generated_from ethane] 0 false absent).1 = Raise TypeError /\
  (compute_novelty ["CC"] absent).1 = Ok (NoveltySkipped 1 1) /\
  existsb is_novelty_notice (stdout (compute_novelty ["CC"] absent).2) = true.
Proof.
  cbv zeta. repeat split; vm_compute; reflexivity.
Qed.


(** ** Worked examples for the further properties *)

(** A generated molecule whose RDKit molecule could not be built, and one
    without bond types. *)
Definition without_rdkit_mol : Molecule TorchTensor :=
  {| rdkit_mol := None; bond_types := Some tt; charges := None |}.

Definition without_bonds : Molecule TorchTensor :=
  {| rdkit_mol := Some ethane; bond_types := None; charges := None |}.

Lemma toy_similarity_unit (a b : nat) : 0 <= TanimotoSimilarity a b <= 1.
Proof.
  simpl. destruct (Nat.eq_dec (Nat.max a b) 0%nat) as [Hzero | Hpos].
  - rewrite Hzero. replace (Nat.min a b) with 0%nat by lia. by vm_compute.
  - apply (count_ratio_bounds (Nat.min a b) (Nat.max a b)); [lia | done].
Qed.

Lemma compute_novelty_spec_witness :
  exists ratio : Q,
    compute_novelty ["CC"; "CCO"] trained
    = (Ok (NoveltyOf (filter (fun y => y ∉ ["CCO"]) ["CC"; "CCO"]) ratio), trained) /\
    0 <= ratio <= 1.
Proof.
  destruct (compute_novelty_spec trained) as [_ Hsome].
  destruct (Hsome ["CCO"] eq_refl) as [_ Hrun].
  destruct (Hrun "CC" ["CCO"]) as (ratio & Heq & Hbounds & _).
  by exists ratio.
Defined.

Lemma compute_sanitize_validity_spec_witness :
  exists q : Q, compute_sanitize_validity mixed_batch = Ok q /\ 0 <= q <= 1.
Proof.
  destruct compute_sanitize_validity_spec as [_ Hrun].
  destruct (Hrun (generated_from ethane)
              [generated_from two_pieces; generated_from shifted_radical])
    as (q & Heq & _ & Hbounds).
  - repeat constructor; eexists; (split; [reflexivity|]); intros e; discriminate.
  - by exists q.
Defined.

Lemma error_counts_ignore_missing_molecules_witness :
  exists smiles mols cc err s',
    compute_validity [generated_from ethane; without_rdkit_mol] 0 true trained
    = (Ok (smiles, mols, cc, err), s') /\
    counter_total err = 1%nat.
Proof.
  destruct (compute_validity [generated_from ethane; without_rdkit_mol] 0 true trained)
    as [[[[[smiles mols] cc] err]|e] s'] eqn:Hrun.
  - exists smiles, mols, cc, err, s'. split; [reflexivity|].
    by rewrite (error_counts_ignore_missing_molecules _ _ _ _ _ _ _ _ _ Hrun).
  - vm_compute in Hrun. discriminate.
Defined.

Lemma non_strict_never_counts_strict_categories_witness :
  exists smiles mols cc err s',
    compute_validity [generated_from shifted_radical] 0 false trained
    = (Ok (smiles, mols, cc, err), s') /\
    counter_get "wrong_bo" err = 0%nat /\ counter_get "radicals" err = 0%nat.
Proof.
  destruct (compute_validity [generated_from shifted_radical] 0 false trained)
    as [[[[[smiles mols] cc] err]|e] s'] eqn:Hrun.
  - exists smiles, mols, cc, err, s'. split; [reflexivity|].
    exact (non_strict_never_counts_strict_categories _ _ _ _ _ _ _ _ Hrun).
  - vm_compute in Hrun. discriminate.
Defined.

Lemma connected_components_is_percentage_witness :
  exists smiles mols cc err s',
    compute_validity mixed_batch 0 true trained = (Ok (smiles, mols, cc, err), s') /\
    0 <= cc <= 100.
Proof.
  destruct (compute_validity mixed_batch 0 true trained)
    as [[[[[smiles mols] cc] err]|e] s'] eqn:Hrun.
  - exists smiles, mols, cc, err, s'. split; [reflexivity|].
    by destruct (connected_components_is_percentage _ _ _ _ _ _ _ _ _ Hrun).
  - vm_compute in Hrun. discriminate.
Defined.

Lemma statistics_without_bonds_witness :
  exists (log : StatisticsLog) (s' : State),
    compute_statistics [without_bonds] 0 trained = (Ok log, s') /\
    AnglesW1 log = Fin (-1) /\
    angle_distance_calls s' = angle_distance_calls trained.
Proof.
  destruct (statistics_without_bonds without_bonds [] 0 trained eq_refl)
    as (log & s' & Hrun & (_ & _ & _ & Hangles & _) & _ & Hcalls & _).
  by exists log, s'.
Defined.

Lemma bulk_similarity_range_witness :
  exists score : fval,
    get_bulk_similarity_with_train ["CC"; "CCC"] trained = (Ok score, trained) /\
    forall q : Q, score = Fin q -> 0 <= q <= 1.
Proof.
  destruct (bulk_similarity_range ["CC"; "CCC"] trained toy_similarity_unit)
    as (score & Hrun & _ & Hrange).
  by exists score.
Defined.

Lemma bulk_diversity_range_witness :
  get_bulk_diversity ["CC"] trained = (Ok NaN, trained) /\
  exists d : Q,
    get_bulk_diversity ["CC"; "CCC"] trained = (Ok (Fin d), trained) /\
    0 <= d <= 1.
Proof.
  split.
  - destruct (bulk_diversity_range ["CC"] trained toy_similarity_unit)
      as (_ & Hfew & _).
    apply Hfew. simpl. lia.
  - destruct (bulk_diversity_range ["CC"; "CCC"] trained toy_similarity_unit)
      as (_ & _ & Hmany).
    destruct Hmany as [Hrun Hrange]; [simpl; lia|].
    eexists. split; [exact Hrun | exact Hrange].
Defined.

Example diversity_of_two :
  fval_is (match (get_bulk_diversity ["CC"; "CCC"] trained).1 with
           | Ok x => Some x
           | Raise _ => None
           end) (1 # 3).
Proof. vm_compute. reflexivity. Qed.


Lemma call_returns_lists_with_statistics_witness :
  exists stability validity statistics smiles_opt mols_opt s',
    __call__ [generated_from ethane; generated_from two_pieces] 0 true trained
    = (Ok (stability, validity, statistics, smiles_opt, mols_opt), s') /\
    (is_Some smiles_opt <-> is_Some mols_opt) /\
    (is_Some statistics -> metrics s' = fresh_metrics).
Proof.
  destruct (__call__ [generated_from ethane; generated_from two_pieces] 0 true trained)
    as [[[[[[stability validity] statistics] smiles_opt] mols_opt]|e] s'] eqn:Hrun.
  - exists stability, validity, statistics, smiles_opt, mols_opt, s'.
    split; [reflexivity|].
    destruct (call_returns_lists_with_statistics _ _ _ _ _ _ _ _ _ _ Hrun)
      as (Hboth & _ & _ & Hreset).
    by split.
  - vm_compute in Hrun. discriminate.
Defined.

Lemma call_training_subset_witness :
  exists s' : State,
    (__call__ [generated_from ethane; generated_from two_pieces] 0 true trained).2 = s' /\
    number_samples s' = 1%nat /\
    train_subset s' = Some (get_random_subset ["CCO"] 1).
Proof.
  destruct (__call__ [generated_from ethane; generated_from two_pieces] 0 true trained)
    as [[[[[[stability validity] statistics] [smiles|]] [mols|]]|e] s'] eqn:Hrun;
    try (vm_compute in Hrun; discriminate).
  exists s'. split; [reflexivity|].
  destruct (call_training_subset _ _ _ trained _ _ _ _ _ ["CCO"] eq_refl Hrun)
    as (Hsamples & Hsubset & _).
  assert (Hlen : length smiles = 1%nat).
  { vm_compute in Hrun. by injection Hrun as _ _ _ <- _ _. }
  rewrite Hlen in Hsamples, Hsubset. split; [done|]. apply Hsubset. simpl. lia.
Defined.

Lemma evaluate_without_valid_smiles_witness :
  exists valid_mols validity nov uniq cc s',
    evaluate [generated_from two_pieces] 0 trained
    = (Ok (valid_mols, [], validity, nov, uniq, cc), s') /\
    nov = PyInt 0 /\ uniq = PyInt 0 /\
    uniqueness (metrics s') = uniqueness (metrics trained).
Proof.
  destruct (evaluate [generated_from two_pieces] 0 trained)
    as [[[[[[[valid_mols smiles] validity] nov] uniq] cc]|e] s'] eqn:Hrun;
    [|vm_compute in Hrun; discriminate].
  assert (Hnone : smiles = []).
  { vm_compute in Hrun. by injection Hrun as _ <- _ _ _ _ _. }
  subst smiles.
  exists valid_mols, validity, nov, uniq, cc, s'. split; [reflexivity|].
  destruct (evaluate_without_valid_smiles _ _ _ _ _ _ _ _ _ _ Hrun) as [Hempty _].
  destruct (Hempty eq_refl) as (Hnov & Huniq & Hkeep & _). done.
Defined.

Lemma analyze_reports_batch_validity_witness :
  exists (validity_dict : ValidityDict) (q : Q),
    option_map (fun r => dict_validity r.1.1.1.2)
      (match analyze_stability_for_molecules
               [generated_from ethane; generated_from two_pieces;
                generated_from ethane] ["CCO"] 0 false with
       | Ok r => Some r
       | Raise _ => None
       end) = Some (Fin q) /\
    dict_validity validity_dict = Fin q /\ 0 <= q <= 1.
Proof.
  destruct (analyze_stability_for_molecules
              [generated_from ethane; generated_from two_pieces;
               generated_from ethane] ["CCO"] 0 false)
    as [[[[[stability validity_dict] statistics] smiles_opt] mols_opt]|e] eqn:Hrun;
    [|vm_compute in Hrun; discriminate].
  destruct (analyze_reports_batch_validity _ _ _ _ _ _ _ _ _ Hrun)
    as (v & q & _ & Hvalidity & _ & Hbounds).
  exists validity_dict, q. simpl. rewrite Hvalidity. done.
Defined.

Example analyze_validity_of_three :
  fval_is (match analyze_stability_for_molecules
                   [generated_from ethane; generated_from two_pieces;
                    generated_from ethane] ["CCO"] 0 false with
           | Ok r => Some (dict_validity r.1.1.1.2)
           | Raise _ => None
           end) (2 # 3).
Proof. vm_compute. reflexivity. Qed.

End BasicMolecularMetrics.

(** ** docking_utils.py: the docking box of [VinaDock] *)

Module VinaDock.
Section MaxMinPdb.

(** Python's [float(text)]; [None] stands for the [ValueError] it raises
    on text that is not a number. *)
Variable float : string -> option Q.

(** [s.startswith(p)]. *)
Definition startswith (p s : string) : bool := String.prefix p s.

(** [s[a:b]] for [0 <= a <= b] (clamped at the end of the string). *)
Definition py_slice (s : string) (a b : nat) : string :=
  String.substring a (b - a) s.

(** The filter of the list comprehension over [f.readlines()]. *)
Definition is_atom_line (l : string) : bool :=
  startswith "ATOM" l || startswith "HEATATM" l.

(** [[float(l[a:b]) for l in lines]]. *)
Definition parse_column (a b : nat) (lines : list string) : Result (list Q) :=
  for_each (fun acc l => match float (py_slice l a b) with
                         | Some x => Ok (acc ++ [x])
                         | None => Raise ValueError
                         end) [] lines.

(** [max(l)] and [min(l)] of a list; both raise [ValueError] on []. *)
Definition py_max (l : list Q) : Result Q :=
  match l with
  | [] => Raise ValueError
  | x :: xs => Ok (foldl Qmax x xs)
  end.

Definition py_min (l : list Q) : Result Q :=
  match l with
  | [] => Raise ValueError
  | x :: xs => Ok (foldl Qmin x xs)
  end.

(** [(max(l), min(l))], as each [print] evaluates them. *)
Definition max_min (l : list Q) : Result (Q * Q) :=
  match py_max l, py_min l with
  | Ok hi, Ok lo => Ok (hi, lo)
  | Raise e, _ => Raise e
  | _, Raise e => Raise e
  end.

(** [_max_min_pdb(pdb, buffer)] on the lines of the file [pdb]: the three
    printed pairs, then [(pocket_center, box_size)]. *)
Definition _max_min_pdb (file_lines : list string) (buffer : Q)
    : Result (list (Q * Q) * (list Q * list Q)) :=
  let lines := List.filter is_atom_line file_lines in
  match parse_column 31 39 lines with
  | Raise e => Raise e
  | Ok xs =>
  match parse_column 39 47 lines with
  | Raise e => Raise e
  | Ok ys =>
  match parse_column 47 55 lines with
  | Raise e => Raise e
  | Ok zs =>
  match max_min xs with
  | Raise e => Raise e
  | Ok (max_x, min_x) =>
  match max_min ys with
  | Raise e => Raise e
  | Ok (max_y, min_y) =>
  match max_min zs with
  | Raise e => Raise e
  | Ok (max_z, min_z) =>
      Ok ([(max_x, min_x); (max_y, min_y); (max_z, min_z)],
          ([(max_x + min_x) / 2; (max_y + min_y) / 2; (max_z + min_z) / 2],
           [(max_x - min_x) + buffer; (max_y - min_y) + buffer;
            (max_z - min_z) + buffer]))
  end end end end end end.

(** *** Properties of the box *)



Lemma Qmin_cases (x y : Q) : Qmin x y = x \/ Qmin x y = y.
Proof.
  unfold Qmin, GenericMinMax.gmin. destruct (x ?= y); auto.
Qed.







(** Without a line that starts with [ATOM] or [HEATATM] there is nothing
    to take a maximum of, and [_max_min_pdb] raises [ValueError]; the
    empty file is one such case. *)
Theorem box_needs_an_atom_line (file_lines : list string) (buffer : Q) :
  _max_min_pdb (List.filter (fun l => negb (is_atom_line l)) file_lines) buffer
  = Raise ValueError.
Proof.
  unfold _max_min_pdb.
  assert (Hnone : List.filter is_atom_line
                    (List.filter (fun l => negb (is_atom_line l)) file_lines) = []).
  { induction file_lines as [|l file_lines IH]; [done|]. simpl.
    destruct (is_atom_line l) eqn:Hl; simpl; [done|]. by rewrite Hl. }
  by rewrite Hnone.
Qed.

Lemma prefix_cons (c d : Ascii.ascii) (p s : string) :
  String.prefix (String c p) (String d s)
  = if Ascii.ascii_dec c d then String.prefix p s else false.
Proof. reflexivity. Qed.

Lemma prefix_cons_true (c d : Ascii.ascii) (p s : string) :
  String.prefix (String c p) (String d s) = true -> c = d /\ String.prefix p s = true.
Proof.
  rewrite prefix_cons. by destruct (Ascii.ascii_dec c d).
Qed.

Lemma prefix_cons_differ (c d : Ascii.ascii) (p s : string) :
  c ≠ d -> String.prefix (String c p) (String d s) = false.
Proof.
  intros Hne. rewrite prefix_cons. by destruct (Ascii.ascii_dec c d).
Qed.

Lemma prefix_cons_same (c : Ascii.ascii) (p s : string) :
  String.prefix (String c p) (String c s) = String.prefix p s.
Proof.
  rewrite prefix_cons. by destruct (Ascii.ascii_dec c c).
Qed.

Lemma hetatm_is_no_atom_line (l : string) :
  startswith "HETATM" l = true -> is_atom_line l = false.
Proof.
  unfold is_atom_line, startswith. intros Hl.
  destruct l as [|c1 l]; [discriminate|].
  apply prefix_cons_true in Hl as [<- Hl].
  destruct l as [|c2 l]; [discriminate|].
  apply prefix_cons_true in Hl as [<- Hl].
  destruct l as [|c3 l]; [discriminate|].
  apply prefix_cons_true in Hl as [<- _].
  rewrite (prefix_cons_differ "A"%char "H"%char) by discriminate.
  rewrite !prefix_cons_same.
  by rewrite (prefix_cons_differ "A"%char "T"%char) by discriminate.
Qed.

(** Hetero-atom records never enter the box: the prefix that the code
    tests is [HEATATM], so the lines that start with [HETATM] can be
    removed from the file without changing the result. *)
Theorem box_ignores_hetatm_lines (file_lines : list string) (buffer : Q) :
  _max_min_pdb (List.filter (fun l => negb (startswith "HETATM" l)) file_lines) buffer
  = _max_min_pdb file_lines buffer.
Proof.
  unfold _max_min_pdb.
  assert (Hsame : List.filter is_atom_line
                    (List.filter (fun l => negb (startswith "HETATM" l)) file_lines)
                  = List.filter is_atom_line file_lines).
  { induction file_lines as [|l file_lines IH]; [done|]. simpl.
    destruct (startswith "HETATM" l) eqn:Hl; simpl.
    - by rewrite (hetatm_is_no_atom_line l Hl).
    - by rewrite IH. }
  by rewrite Hsame.
Qed.

End MaxMinPdb.

(** A reader of the three numbers the example file uses. *)
Definition example_float (text : string) : option Q :=
  if String.eqb text "   1.000" then Some 1
  else if String.eqb text "   3.000" then Some 3
  else if String.eqb text "  -2.000" then Some (-2)
  else None.

Definition example_pdb : list string :=
  ["REMARK example";
   "ATOM      1  C   LIG A   1        1.000   3.000  -2.000  1.00  0.00";
   "HETATM    2  O   HOH A   2        9.999   9.999   9.999  1.00  0.00";
   "ATOM      3  N   LIG A   1        3.000   1.000   1.000  1.00  0.00"].

Example example_pdb_box :
  _max_min_pdb example_float example_pdb (1 # 2)
  = Ok ([(3, 1); (3, 1); (1, -2)],
        ([(3 + 1) / 2; (3 + 1) / 2; (1 + -2) / 2],
         [3 - 1 + (1 # 2); 3 - 1 + (1 # 2); 1 - -2 + (1 # 2)])).
Proof. reflexivity. Qed.

End VinaDock.
